(** * static-cdk: the hosting and the delivery topology

    A shallow embedding of the three infrastructure sources of the
    repository: [lib/static-site.stack.ts] (class [StaticSiteStack]),
    [lib/ci-cd.stack.ts] (class [CiCdStack]) and the application entry
    point that instantiates both stacks.

    A stack constructor is a sequence of [new X(this, id, props)]
    statements, each of which registers a construct under the stack, plus
    a few method calls that mutate a construct created earlier
    ([siteBucket.addToResourcePolicy], [role?.addToPrincipalPolicy]).
    The constructs of a stack are therefore kept in a store, a list in
    declaration order; a construct is referred to by its position in the
    store (its handle), so that two mentions of [siteBucket] denote one
    object.  Constructors run in a state-and-error monad over that store.

    The store holds the constructs that the constructors declare.  The
    children that the library's constructs attach to a stack by
    themselves (providers, handlers, the artifact bucket of a pipeline)
    and the library's validation of ids and names are not part of it;
    what is recorded of the library is what it writes into a construct
    the sources declare: the statement that [autoDeleteObjects] adds to
    the bucket policy, and the statements in the policy of the role that
    a build project creates for itself. *)

From Stdlib Require Import Ascii String.
From stdpp Require Import base list strings.

Set Default Proof Using "Type".

(** ** Strings that hold deploy-time tokens *)

(** A handle: the position of a construct in the store of its stack. *)
Definition Handle := nat.

(** A CDK string is either plain text or a token that the provider
    resolves at deploy time; a template literal that interpolates a
    token is the concatenation of its pieces. *)
Inductive Frag :=
| Text (s : string)                    (* literal characters *)
| ImportValue (exportName : string)    (* [Fn.importValue(exportName)] *)
| Attr (h : Handle) (attr : string)    (* a property of a construct, known after creation *)
| Pseudo (name : string).              (* a value the provider knows by name: [Aws.REGION],
                                          [Aws.ACCOUNT_ID], an attribute of a construct that
                                          the library creates by itself *)

Definition CfnString := list Frag.

Definition lit (s : string) : CfnString := [Text s].

Module Fn.
Definition importValue (sharedValueToImport : string) : CfnString :=
  [ImportValue sharedValueToImport].
End Fn.

Module Aws.
Definition REGION : CfnString := [Pseudo "AWS::Region"].
Definition ACCOUNT_ID : CfnString := [Pseudo "AWS::AccountId"].
End Aws.

(** The double-quote character, used inside the build commands. *)
Definition dq : string := String "034"%char EmptyString.

(** What the provider puts in place of each token. *)
Record Resolution := {
  imports : string -> string;
  attrs : Handle -> string -> string;
  pseudos : string -> string;
}.

Definition renderFrag (env : Resolution) (f : Frag) : string :=
  match f with
  | Text s => s
  | ImportValue k => imports env k
  | Attr h a => attrs env h a
  | Pseudo n => pseudos env n
  end.

Fixpoint render (env : Resolution) (s : CfnString) : string :=
  match s with
  | [] => ""
  | f :: s' => renderFrag env f +:+ render env s'
  end.

(** ** The Resource Namer *)

(** Modelled from the spec: [identifyResource] of [lib/config-util.ts],
    which is imported by all three sources and is not among them.  The
    spec gives the derived identifier as prefix, separator, logical name,
    and the example [cdk-web-static] , [bucket-name] giving
    [cdk-web-static-bucket-name]: the separator is a hyphen. *)
Definition identifyResource (prefix logicalName : string) : string :=
  prefix +:+ "-" +:+ logicalName.

(** ** Props shared by the stacks *)

Module Environment.
Record t := { account : option string; region : option string }.
End Environment.

Module StackProps.
Record t := { env : option Environment.t }.
End StackProps.

(** ** IAM *)

Inductive Effect := ALLOW | DENY.

Inductive Principal :=
| CanonicalUserPrincipal (canonicalUserId : CfnString)
| AnyPrincipal
| ArnPrincipal (arn : CfnString)
| AccountPrincipal (accountId : CfnString)
| ServicePrincipal (service : string).

Module PolicyStatement.
(** [effect] is optional in the source; an absent effect means [ALLOW]. *)
Record t := {
  effect : option Effect;
  actions : list string;
  resources : list CfnString;
  principals : list Principal;
}.
Definition effectOf (s : t) : Effect := default ALLOW (effect s).
End PolicyStatement.

(** ** Constructs of the hosting stack *)

Module HostedZone.
(** [HostedZone.fromLookup(scope, id, {domainName})] *)
Record t := { domainName : string }.
End HostedZone.

Module OriginAccessIdentity.
Record t := { comment : string }.
Definition cloudFrontOriginAccessIdentityS3CanonicalUserId (h : Handle) : CfnString :=
  [Attr h "cloudFrontOriginAccessIdentityS3CanonicalUserId"].
End OriginAccessIdentity.

Inductive BlockPublicAccess := BLOCK_ALL | BLOCK_ACLS.
Inductive RemovalPolicy := DESTROY | RETAIN | SNAPSHOT.

Module Bucket.
(** The props of [new s3.Bucket], and the resource policy that
    [addToResourcePolicy] extends in place. *)
Record t := {
  bucketName : string;
  websiteIndexDocument : string;
  websiteErrorDocument : string;
  publicReadAccess : bool;
  blockPublicAccess : BlockPublicAccess;
  removalPolicy : RemovalPolicy;
  autoDeleteObjects : bool;
  policy : list PolicyStatement.t;
}.
(** [bucket.bucketName] and [bucket.bucketArn] are deploy-time tokens. *)
Definition bucketNameRef (h : Handle) : CfnString := [Attr h "bucketName"].
Definition bucketArn (h : Handle) : CfnString := [Attr h "bucketArn"].
(** [arnForObjects(keyPattern)] is the bucket ARN, a slash, the pattern. *)
Definition arnForObjects (h : Handle) (keyPattern : string) : CfnString :=
  bucketArn h ++ [Text ("/" +:+ keyPattern)].
Definition addStatement (s : PolicyStatement.t) (b : t) : t :=
  {| bucketName := bucketName b;
     websiteIndexDocument := websiteIndexDocument b;
     websiteErrorDocument := websiteErrorDocument b;
     publicReadAccess := publicReadAccess b;
     blockPublicAccess := blockPublicAccess b;
     removalPolicy := removalPolicy b;
     autoDeleteObjects := autoDeleteObjects b;
     policy := policy b ++ [s] |}.
(** The statement that the bucket's own constructor adds to the resource
    policy when [autoDeleteObjects] is set: the role of the provider that
    empties the bucket may list it and delete its objects. *)
Definition autoDeleteStatement (h : Handle) : PolicyStatement.t :=
  {| PolicyStatement.effect := None;
     PolicyStatement.actions := ["s3:GetBucket*"; "s3:List*"; "s3:DeleteObject*"];
     PolicyStatement.resources := [bucketArn h; arnForObjects h "*"];
     PolicyStatement.principals :=
       [ArnPrincipal [Pseudo "Custom::S3AutoDeleteObjectsCustomResourceProvider.roleArn"]] |}.
End Bucket.

Module CfnOutput.
Record t := { value : CfnString; exportName : string }.
End CfnOutput.

Module DnsValidatedCertificate.
Record t := {
  domainName : string;
  hostedZone : Handle;
  region : string;
  subjectAlternativeNames : list string;
}.
Definition certificateArn (h : Handle) : CfnString := [Attr h "certificateArn"].
End DnsValidatedCertificate.

Inductive SSLMethod := SNI | VIP.

Inductive SecurityPolicyProtocol :=
| SSL_V3 | TLS_V1 | TLS_V1_2016 | TLS_V1_1_2016 | TLS_V1_2_2018 | TLS_V1_2_2019 | TLS_V1_2_2021.

Module Metric.
Record t := { namespace : string; metricName : string }.
End Metric.

Module ViewerCertificate.
(** [ViewerCertificate.fromAcmCertificate(certificate, options)]: the
    first argument is the object literal that stands for the issued
    certificate (its ARN, environment and expiry metric), the second
    the viewer options. *)
Record t := {
  certificateArn : CfnString;
  certRegion : CfnString;
  certAccount : CfnString;
  metricDaysToExpiry : Metric.t;
  sslMethod : SSLMethod;
  securityPolicy : SecurityPolicyProtocol;
  aliases : list string;
}.
End ViewerCertificate.

Inductive HttpMethod := GET | HEAD | OPTIONS | PUT | PATCH | POST | DELETE.

Inductive CloudFrontAllowedMethods := GET_HEAD | GET_HEAD_OPTIONS | ALL.

(** The verbs each setting lets through the distribution. *)
Definition allowedVerbs (m : CloudFrontAllowedMethods) : list HttpMethod :=
  match m with
  | GET_HEAD => [GET; HEAD]
  | GET_HEAD_OPTIONS => [GET; HEAD; OPTIONS]
  | ALL => [DELETE; GET; HEAD; OPTIONS; PATCH; POST; PUT]
  end.

Definition mutating (v : HttpMethod) : bool :=
  match v with
  | GET | HEAD | OPTIONS => false
  | PUT | PATCH | POST | DELETE => true
  end.

Module Behavior.
Record t := {
  isDefaultBehavior : bool;
  compress : bool;
  allowedMethods : CloudFrontAllowedMethods;
}.
End Behavior.

Module S3OriginConfig.
Record t := { s3BucketSource : Handle; originAccessIdentity : Handle }.
End S3OriginConfig.

Module SourceConfiguration.
Record t := { s3OriginSource : S3OriginConfig.t; behaviors : list Behavior.t }.
End SourceConfiguration.

Module CloudFrontWebDistribution.
Record t := {
  viewerCertificate : ViewerCertificate.t;
  originConfigs : list SourceConfiguration.t;
}.
Definition distributionId (h : Handle) : CfnString := [Attr h "distributionId"].
End CloudFrontWebDistribution.

Inductive RecordTarget :=
| CloudFrontTarget (distribution : Handle).   (* [RecordTarget.fromAlias(new CloudFrontTarget(d))] *)

Module ARecord.
Record t := { recordName : string; target : RecordTarget; zone : Handle }.
End ARecord.

Module BucketDeployment.
Record t := {
  sources : list string;               (* [Source.asset(path)] *)
  destinationBucket : Handle;
  distribution : Handle;
  distributionPaths : list string;
}.
End BucketDeployment.

(** ** Constructs of the delivery stack *)

Module SecretValue.
Record t := { secretId : string; jsonField : string }.
Definition secretsManager (secretId jsonField : string) : t :=
  {| secretId := secretId; jsonField := jsonField |}.
End SecretValue.

Module Artifact.
Record t := { artifactName : string }.
End Artifact.

Module GitHubSourceAction.
Record t := {
  actionName : string;
  owner : string;
  repo : string;
  branch : string;
  oauthToken : SecretValue.t;
  output : Artifact.t;
}.
End GitHubSourceAction.

Module CodeBuildAction.
Record t := { actionName : string; project : Handle; input : Artifact.t }.
End CodeBuildAction.

Inductive Action :=
| SourceAction (a : GitHubSourceAction.t)
| BuildAction (a : CodeBuildAction.t).

Module StageProps.
Record t := { stageName : string; actions : list Action }.
End StageProps.

Module Pipeline.
Record t := { pipelineName : string; stages : list StageProps.t }.
End Pipeline.

Module Phase.
Record t := {
  runtime_versions : list (string * string);
  commands : list CfnString;
}.
End Phase.

Module BuildSpec.
(** [BuildSpec.fromObject]: the phases are the entries of an object
    literal, kept here by key in the order written. *)
Record t := { version : string; phases : list (string * Phase.t) }.

Fixpoint phase (name : string) (ps : list (string * Phase.t)) : option Phase.t :=
  match ps with
  | [] => None
  | (k, p) :: ps' => if String.eqb k name then Some p else phase name ps'
  end.

(** The build service runs the phases of a build specification in this
    fixed order, whatever the order of the keys. *)
Definition phaseOrder : list string := ["install"; "pre_build"; "build"; "post_build"].

Definition commandsOf (spec : t) (name : string) : list CfnString :=
  match phase name (phases spec) with
  | Some p => Phase.commands p
  | None => []
  end.

Definition commandSequence (spec : t) : list CfnString :=
  flat_map (commandsOf spec) phaseOrder.
End BuildSpec.

Inductive LinuxBuildImage := STANDARD_4_0 | STANDARD_5_0 | STANDARD_6_0.

(** What the library grants by itself to the role that a build project
    creates: at creation, the permission to write the build logs and the
    one to write test reports; when an action of a pipeline binds the
    project, read and write access to the artifact bucket of the
    pipeline and the use of its key. *)
Inductive LibraryGrant :=
| LoggingPermission
| ReportGroupPermission
| ArtifactBucketReadWrite
| ArtifactKeyReadWrite
| ArtifactKeyEncryptDecrypt.

(** A statement of the policy document of a role: one that the stack's
    code declares, or one that the library attaches. *)
Inductive RoleStatement :=
| Declared (s : PolicyStatement.t)
| Attached (g : LibraryGrant).

Module Role.
(** The policy document of the role, in the order the statements came. *)
Record t := { document : list RoleStatement }.
Definition asDeclared (s : RoleStatement) : option PolicyStatement.t :=
  match s with Declared p => Some p | Attached _ => None end.
(** The statements that came through [addToPrincipalPolicy]. *)
Definition principalPolicy (r : t) : list PolicyStatement.t :=
  omap asDeclared (document r).
Definition addToPrincipalPolicy (s : PolicyStatement.t) (r : t) : t :=
  {| document := document r ++ [Declared s] |}.
Definition attach (gs : list LibraryGrant) (r : t) : t :=
  {| document := document r ++ (Attached <$> gs) |}.
(** The role that a project creates for itself. *)
Definition ofProject : t :=
  {| document := [Attached LoggingPermission; Attached ReportGroupPermission] |}.
End Role.

Module PipelineProject.
(** [role] is [IRole | undefined] in the library; the source passes no
    role, and the project then creates its own. *)
Record t := {
  buildSpec : BuildSpec.t;
  buildImage : LinuxBuildImage;
  role : option Role.t;
}.
Definition mapRole (f : Role.t -> Role.t) (p : t) : t :=
  {| buildSpec := buildSpec p; buildImage := buildImage p; role := f <$> role p |}.
End PipelineProject.

Module Topic.
Record t := { topicName : string; displayName : string }.
End Topic.

Inductive SubscriptionProtocol := EMAIL | EMAIL_JSON | HTTPS | SMS | SQS | LAMBDA.

Module Subscription.
Record t := { protocol : SubscriptionProtocol; endpoint : string; topic : Handle }.
End Subscription.

Inductive RuleTarget :=
| SnsTopic (topic : Handle).

Inductive BuildEvent := BuildStarted | BuildSucceeded | BuildFailed.

Module Rule.
(** The event rule that [project.onBuildFailed(id, {target})] creates:
    it fires on the given state of the project's builds. *)
Record t := { project : Handle; on : BuildEvent; targets : list RuleTarget }.
End Rule.

(** ** The store of a stack *)

Inductive Construct :=
| CHostedZone (z : HostedZone.t)
| COriginAccessIdentity (o : OriginAccessIdentity.t)
| CBucket (b : Bucket.t)
| CCfnOutput (o : CfnOutput.t)
| CDnsValidatedCertificate (c : DnsValidatedCertificate.t)
| CCloudFrontWebDistribution (d : CloudFrontWebDistribution.t)
| CARecord (r : ARecord.t)
| CBucketDeployment (d : BucketDeployment.t)
| CPipelineProject (p : PipelineProject.t)
| CTopic (t : Topic.t)
| CSubscription (s : Subscription.t)
| CRule (r : Rule.t)
| CPipeline (p : Pipeline.t).

(** The scope a construct is created under: the stack ([this]) or another
    construct of the stack. *)
Inductive Scope := This | Under (h : Handle).

Module Node.
Record t := { scope : Scope; id : string; construct : Construct }.
Definition withConstruct (c : Construct) (n : t) : t :=
  {| scope := scope n; id := id n; construct := c |}.
End Node.

Module Stack.
Record t := { stackId : string; props : StackProps.t; children : list Node.t }.
Definition withChildren (l : list Node.t) (s : t) : t :=
  {| stackId := stackId s; props := props s; children := l |}.
(** [super(parent, id, props)] *)
Definition create (id : string) (p : StackProps.t) : t :=
  {| stackId := id; props := p; children := [] |}.
End Stack.

(** ** The monad of constructors: state, and the exceptions of the runtime *)

Inductive Error :=
| TypeError (msg : string)            (* a property read on [undefined] *)
| NotA (kind : string) (h : Handle).  (* a handle that does not denote the expected construct *)

Definition M (S A : Type) : Type := S -> Error + (A * S).

Definition ret {S A} (a : A) : M S A := fun s => inr (a, s).

Definition bind {S A B} (c : M S A) (k : A -> M S B) : M S B :=
  fun s => match c s with
           | inl e => inl e
           | inr (a, s') => k a s'
           end.

Definition throw {S A} (e : Error) : M S A := fun _ => inl e.

Declare Scope ctor_scope.
Delimit Scope ctor_scope with ctor.
Notation "x <- c ; k" := (bind c (fun x => k))
  (at level 20, c at level 100, k at level 200, only parsing) : ctor_scope.
Notation "c ;; k" := (bind c (fun _ => k))
  (at level 100, k at level 200, only parsing, right associativity) : ctor_scope.
Open Scope ctor_scope.

(** The final state of a computation. *)
Definition exec {S A} (c : M S A) (s : S) : Error + S :=
  match c s with
  | inl e => inl e
  | inr (_, s') => inr s'
  end.

(** [new X(scope, id, props)]: the construct is appended to the store of
    the stack, and its handle is returned. *)
Definition new_ (sc : Scope) (id : string) (c : Construct) : M Stack.t Handle :=
  fun st =>
    let h := length (Stack.children st) in
    inr (h, Stack.withChildren
              (Stack.children st ++ [{| Node.scope := sc; Node.id := id; Node.construct := c |}]) st).

Definition construct_at (h : Handle) (st : Stack.t) : option Construct :=
  Node.construct <$> Stack.children st !! h.

Definition set_construct (h : Handle) (c : Construct) (st : Stack.t) : Stack.t :=
  Stack.withChildren (alter (Node.withConstruct c) h (Stack.children st)) st.

(** Reading and updating a bucket through its handle. *)
Definition getBucket (h : Handle) : M Stack.t Bucket.t :=
  fun st => match construct_at h st with
            | Some (CBucket b) => inr (b, st)
            | _ => inl (NotA "Bucket" h)
            end.

(** [bucket.addToResourcePolicy(statement)] *)
Definition addToResourcePolicy (h : Handle) (s : PolicyStatement.t) : M Stack.t unit :=
  b <- getBucket h;
  fun st => inr (tt, set_construct h (CBucket (Bucket.addStatement s b)) st).

(** [new s3.Bucket(scope, id, props)]: with [autoDeleteObjects] the
    constructor of the bucket adds the provider's statement to the policy. *)
Definition newBucket (sc : Scope) (id : string) (props : Bucket.t) : M Stack.t Handle :=
  h <- new_ sc id (CBucket props);
  (if Bucket.autoDeleteObjects props
   then addToResourcePolicy h (Bucket.autoDeleteStatement h)
   else ret tt);;
  ret h.

Definition getProject (h : Handle) : M Stack.t PipelineProject.t :=
  fun st => match construct_at h st with
            | Some (CPipelineProject p) => inr (p, st)
            | _ => inl (NotA "PipelineProject" h)
            end.

(** [project.role?.addToPrincipalPolicy(statement)]: nothing happens when
    the project has no role. *)
Definition role_addToPrincipalPolicy (h : Handle) (s : PolicyStatement.t) : M Stack.t unit :=
  p <- getProject h;
  fun st => inr (tt, set_construct h
                       (CPipelineProject (PipelineProject.mapRole (Role.addToPrincipalPolicy s) p)) st).

Fixpoint forEach {S A} (f : A -> M S unit) (l : list A) : M S unit :=
  match l with
  | [] => ret tt
  | a :: l' => f a;; forEach f l'
  end.

(** Binding an action to its pipeline: the role of the project of a build
    action is given the artifact bucket of the pipeline and its key. *)
Definition bindAction (a : Action) : M Stack.t unit :=
  match a with
  | SourceAction _ => ret tt
  | BuildAction b =>
      p <- getProject (CodeBuildAction.project b);
      fun st => inr (tt, set_construct (CodeBuildAction.project b)
                           (CPipelineProject
                              (PipelineProject.mapRole
                                 (Role.attach [ArtifactBucketReadWrite; ArtifactKeyReadWrite;
                                               ArtifactKeyEncryptDecrypt]) p)) st)
  end.

(** [new Pipeline(scope, id, {pipelineName, stages})]: the pipeline binds
    the actions of its stages as it takes them in. *)
Definition newPipeline (sc : Scope) (id : string) (p : Pipeline.t) : M Stack.t Handle :=
  h <- new_ sc id (CPipeline p);
  forEach bindAction (flat_map StageProps.actions (Pipeline.stages p));;
  ret h.

(** [project.onBuildFailed(id, {target})]: an event rule created under
    the project. *)
Definition onBuildFailed (h : Handle) (id : string) (target : RuleTarget) : M Stack.t Handle :=
  _ <- getProject h;
  new_ (Under h) id (CRule {| Rule.project := h; Rule.on := BuildFailed; Rule.targets := [target] |}).

(** [x!] followed by a property read: a [TypeError] when [x] is undefined. *)
Definition nonNull {S A} (what : string) (o : option A) : M S A :=
  match o with
  | Some a => ret a
  | None => throw (TypeError ("Cannot read properties of undefined (reading '" +:+ what +:+ "')"))
  end.

(** A value of type [string | undefined] inside a template literal. *)
Definition interpolate (o : option string) : string := default "undefined" o.

(** ** [StaticSiteStack] *)

Module StaticSiteProps.
Record t := {
  env : option Environment.t;            (* inherited from [StackProps] *)
  resourcePrefix : string;
  hostedZoneName : string;
  domainName : string;
  includeWWW : bool;
  siteSourcePath : string;
  staticSiteBucketNameOutputId : string;
  staticSiteDistributionIdOutputId : string;
}.
Definition stackProps (p : t) : StackProps.t := {| StackProps.env := env p |}.
End StaticSiteProps.

Module StaticSiteStack.
Import StaticSiteProps.

(** The statements of the constructor after [super(parent, id, props)]. *)
Definition body (id : string) (props : StaticSiteProps.t) : M Stack.t unit :=
  zone <- new_ This (identifyResource (resourcePrefix props) "hosted-zone")
            (CHostedZone {| HostedZone.domainName := hostedZoneName props |});
  let siteDomain := domainName props in
  let fullSiteDomain := "www." +:+ siteDomain in
  cloudfrontOAI <- new_ This (identifyResource (resourcePrefix props) "cloudfront-OAI")
            (COriginAccessIdentity {| OriginAccessIdentity.comment := "OAI for " +:+ id |});

  (* Create an s3 bucket for the static content *)
  siteBucket <- newBucket This (identifyResource (resourcePrefix props) "site-bucket")
                     {| Bucket.bucketName := siteDomain;
                        Bucket.websiteIndexDocument := "index.html";
                        Bucket.websiteErrorDocument := "error.html";
                        Bucket.publicReadAccess := false;
                        Bucket.blockPublicAccess := BLOCK_ALL;
                        Bucket.removalPolicy := DESTROY;
                        Bucket.autoDeleteObjects := true;
                        Bucket.policy := [] |};

  (* Grant access to cloudfront *)
  addToResourcePolicy siteBucket
    {| PolicyStatement.effect := None;
       PolicyStatement.actions := ["s3:GetObject"];
       PolicyStatement.resources := [Bucket.arnForObjects siteBucket "*"];
       PolicyStatement.principals :=
         [CanonicalUserPrincipal
            (OriginAccessIdentity.cloudFrontOriginAccessIdentityS3CanonicalUserId cloudfrontOAI)] |};;
  _ <- new_ This (staticSiteBucketNameOutputId props)
            (CCfnOutput {| CfnOutput.value := Bucket.bucketNameRef siteBucket;
                           CfnOutput.exportName := staticSiteBucketNameOutputId props |});

  (* Create TLS certificate + automatic DNS validation *)
  certificate <- new_ This (identifyResource (resourcePrefix props) "site-certificate")
            (CDnsValidatedCertificate
               {| DnsValidatedCertificate.domainName := siteDomain;
                  DnsValidatedCertificate.hostedZone := zone;
                  DnsValidatedCertificate.region := "us-east-1";
                  DnsValidatedCertificate.subjectAlternativeNames :=
                    if includeWWW props then [fullSiteDomain] else [] |});
  let certificateArn := DnsValidatedCertificate.certificateArn certificate in

  (* Create a CloudFront viewer certificate enforcing usage of HTTPS & TLS v1.2 *)
  let viewerCertificate :=
    {| ViewerCertificate.certificateArn := certificateArn;
       ViewerCertificate.certRegion := Aws.REGION;
       ViewerCertificate.certAccount := Aws.ACCOUNT_ID;
       ViewerCertificate.metricDaysToExpiry :=
         {| Metric.namespace := "TLS Viewer Certificate Validity";
            Metric.metricName := "TLS Viewer Certificate Expired" |};
       ViewerCertificate.sslMethod := SNI;
       ViewerCertificate.securityPolicy := TLS_V1_2_2021;
       ViewerCertificate.aliases :=
         if includeWWW props then [siteDomain; fullSiteDomain] else [siteDomain] |} in

  (* Set up the CloudFront distribution *)
  distribution <- new_ This (identifyResource (resourcePrefix props) "site-distribution")
            (CCloudFrontWebDistribution
               {| CloudFrontWebDistribution.viewerCertificate := viewerCertificate;
                  CloudFrontWebDistribution.originConfigs :=
                    [ {| SourceConfiguration.s3OriginSource :=
                           {| S3OriginConfig.s3BucketSource := siteBucket;
                              S3OriginConfig.originAccessIdentity := cloudfrontOAI |};
                         SourceConfiguration.behaviors :=
                           [ {| Behavior.isDefaultBehavior := true;
                                Behavior.compress := true;
                                Behavior.allowedMethods := GET_HEAD_OPTIONS |} ] |} ] |});
  _ <- new_ This (staticSiteDistributionIdOutputId props)
            (CCfnOutput {| CfnOutput.value := CloudFrontWebDistribution.distributionId distribution;
                           CfnOutput.exportName := staticSiteDistributionIdOutputId props |});

  (* Set up Route53 aliases records for the CloudFront distribution *)
  _ <- new_ This (identifyResource (resourcePrefix props) "site-alias-record-01")
            (CARecord {| ARecord.recordName := siteDomain;
                         ARecord.target := CloudFrontTarget distribution;
                         ARecord.zone := zone |});
  (if includeWWW props
   then _ <- new_ This (identifyResource (resourcePrefix props) "site-alias-record-02")
               (CARecord {| ARecord.recordName := fullSiteDomain;
                            ARecord.target := CloudFrontTarget distribution;
                            ARecord.zone := zone |});
        ret tt
   else ret tt);;

  (* Deploy site contents to S3 bucket *)
  _ <- new_ This (identifyResource (resourcePrefix props) "bucket-deployment")
            (CBucketDeployment {| BucketDeployment.sources := [siteSourcePath props];
                                  BucketDeployment.destinationBucket := siteBucket;
                                  BucketDeployment.distribution := distribution;
                                  BucketDeployment.distributionPaths := ["/*"] |});
  ret tt.

(** [new StaticSiteStack(parent, id, props)], as the stack it builds. *)
Definition create (id : string) (props : StaticSiteProps.t) : Error + Stack.t :=
  exec (body id props) (Stack.create id (stackProps props)).
End StaticSiteStack.

(** ** [CiCdStack] *)

Module CiCdProps.
Record t := {
  env : option Environment.t;            (* inherited from [StackProps] *)
  resourcePrefix : string;
  distributionId : CfnString;
  bucket : CfnString;
  repo : string;
  repoOwner : string;
  repoBranch : string;
  githubTokenSecretId : string;
  buildAlertEmail : string;
}.
Definition stackProps (p : t) : StackProps.t := {| StackProps.env := env p |}.
End CiCdProps.

Module CiCdStack.
Import CiCdProps.

Definition createBuildProject (resourcePrefix : string) (distributionId staticWebsiteBucket : CfnString)
    (buildAlertEmail : string) (account : option string) : M Stack.t Handle :=
  buildProject <- new_ This (identifyResource resourcePrefix "build")
    (CPipelineProject
       {| PipelineProject.buildSpec :=
            {| BuildSpec.version := "0.2";
               BuildSpec.phases :=
                 [ ("install",
                    {| Phase.runtime_versions := [("nodejs", "latest")];
                       Phase.commands := [lit "npm install"] |});
                   ("build",
                    {| Phase.runtime_versions := [];
                       Phase.commands := [lit "npm run build"] |});
                   ("post_build",
                    {| Phase.runtime_versions := [];
                       Phase.commands :=
                         [ [Text ("aws s3 sync " +:+ dq +:+ "dist" +:+ dq +:+ " " +:+ dq +:+ "s3://")]
                             ++ staticWebsiteBucket ++ [Text (dq +:+ " --delete")];
                           [Text "aws cloudfront create-invalidation --distribution-id "]
                             ++ distributionId ++ [Text (" --paths " +:+ dq +:+ "/*" +:+ dq)] ] |}) ] |};
          PipelineProject.buildImage := STANDARD_5_0;
          PipelineProject.role := Some Role.ofProject |});

  let codeBuildS3ListObjectsPolicy :=
    {| PolicyStatement.effect := Some ALLOW;
       PolicyStatement.actions :=
         ["s3:GetObject"; "s3:GetBucketLocation"; "s3:ListBucket";
          "s3:PutObject"; "s3:DeleteObject"; "s3:PutObjectAcl"];
       PolicyStatement.resources :=
         [ [Text "arn:aws:s3:::"] ++ staticWebsiteBucket;
           [Text "arn:aws:s3:::"] ++ staticWebsiteBucket ++ [Text "/*"] ];
       PolicyStatement.principals := [] |} in
  role_addToPrincipalPolicy buildProject codeBuildS3ListObjectsPolicy;;
  let codeBuildCreateInvalidationPolicy :=
    {| PolicyStatement.effect := Some ALLOW;
       PolicyStatement.actions := ["cloudfront:CreateInvalidation"];
       PolicyStatement.resources :=
         [ [Text ("arn:aws:cloudfront::" +:+ interpolate account +:+ ":distribution/")]
             ++ distributionId ];
       PolicyStatement.principals := [] |} in
  role_addToPrincipalPolicy buildProject codeBuildCreateInvalidationPolicy;;

  (* Add alert notifications on build failure *)
  alertsTopic <- new_ This (identifyResource resourcePrefix "notifications")
    (CTopic {| Topic.topicName := identifyResource resourcePrefix "notifications";
               Topic.displayName := resourcePrefix +:+ " pipeline failures" |});

  (* Subscribe to these alerts using email *)
  _ <- new_ This (identifyResource resourcePrefix "notifications-subscription")
    (CSubscription {| Subscription.protocol := EMAIL;
                      Subscription.endpoint := buildAlertEmail;
                      Subscription.topic := alertsTopic |});

  _ <- onBuildFailed buildProject (identifyResource resourcePrefix "build-failed") (SnsTopic alertsTopic);

  ret buildProject.

(** The statements of the constructor after [super(parent, id, props)]. *)
Definition body (props : CiCdProps.t) : M Stack.t unit :=
  (* Create the source action *)
  let github_token := SecretValue.secretsManager (githubTokenSecretId props) "github-token" in
  let sourceOutput := {| Artifact.artifactName := "SourceOutput" |} in
  let sourceAction :=
    {| GitHubSourceAction.actionName := "SOURCE";
       GitHubSourceAction.owner := repoOwner props;
       GitHubSourceAction.repo := repo props;
       GitHubSourceAction.branch := repoBranch props;
       GitHubSourceAction.oauthToken := github_token;
       GitHubSourceAction.output := sourceOutput |} in

  (* Create the build action *)
  e <- nonNull "account" (env props);
  webBuildProject <- createBuildProject (resourcePrefix props) (distributionId props) (bucket props)
                       (buildAlertEmail props) (Environment.account e);
  let buildAction :=
    {| CodeBuildAction.actionName := "BUILD_DEPLOY";
       CodeBuildAction.project := webBuildProject;
       CodeBuildAction.input := sourceOutput |} in

  (* Create the pipeline *)
  let pipelineName := identifyResource (resourcePrefix props) "pipeline" in
  _ <- newPipeline This pipelineName
               {| Pipeline.pipelineName := pipelineName;
                  Pipeline.stages :=
                    [ {| StageProps.stageName := "Source";
                         StageProps.actions := [SourceAction sourceAction] |};
                      {| StageProps.stageName := "Build";
                         StageProps.actions := [BuildAction buildAction] |} ] |};
  ret tt.

(** [new CiCdStack(parent, id, props)], as the stack it builds. *)
Definition create (id : string) (props : CiCdProps.t) : Error + Stack.t :=
  exec (body props) (Stack.create id (stackProps props)).
End CiCdStack.

(** ** The application entry point *)

Module App.
(** The stacks of the application, in the order they were created. *)
Definition t := list Stack.t.

(** [new SomeStack(app, id, props)]: the finished stack joins the app. *)
Definition add (s : Error + Stack.t) : M t unit :=
  fun app => match s with
             | inl e => inl e
             | inr st => inr (tt, app ++ [st])
             end.
End App.

Module Main.
Definition accountId : string := "<<YOUR_ACCOUNT_ID>>".
Definition region : string := "<<YOUR_REGION>>".

(* Create stack that sets up the static hosting of the site *)
Definition staticSiteResourcePrefix : string := "cdk-web-static".
Definition STATIC_SITE_BUCKET_NAME_OUTPUT_ID : string :=
  identifyResource staticSiteResourcePrefix "bucket-name".
Definition STATIC_SITE_DISTRIBUTION_ID_OUTPUT_ID : string :=
  identifyResource staticSiteResourcePrefix "distribution-id".

Definition staticSiteProps : StaticSiteProps.t :=
  {| StaticSiteProps.env :=
       Some {| Environment.account := Some accountId; Environment.region := Some region |};
     StaticSiteProps.resourcePrefix := staticSiteResourcePrefix;
     StaticSiteProps.hostedZoneName := "<<YOUR_HOSTED_ZONE_NAME>>";
     StaticSiteProps.domainName := "<<YOUR_DOMAIN_NAME>>";
     StaticSiteProps.includeWWW := false;
     StaticSiteProps.siteSourcePath := "../dist";
     StaticSiteProps.staticSiteBucketNameOutputId := STATIC_SITE_BUCKET_NAME_OUTPUT_ID;
     StaticSiteProps.staticSiteDistributionIdOutputId := STATIC_SITE_DISTRIBUTION_ID_OUTPUT_ID |}.

(* Create stack that sets up the CI/CD pipeline for the static site *)
Definition ciCdResourcePrefix : string := "cdk-web-cicd".
Definition staticSiteBucket : CfnString := Fn.importValue STATIC_SITE_BUCKET_NAME_OUTPUT_ID.
Definition staticSiteDistributionId : CfnString :=
  Fn.importValue STATIC_SITE_DISTRIBUTION_ID_OUTPUT_ID.

Definition ciCdProps : CiCdProps.t :=
  {| CiCdProps.env :=
       Some {| Environment.account := Some accountId; Environment.region := Some region |};
     CiCdProps.resourcePrefix := ciCdResourcePrefix;
     CiCdProps.distributionId := staticSiteDistributionId;
     CiCdProps.bucket := staticSiteBucket;
     CiCdProps.repo := "<<YOUR_REPO_NAME>>";
     CiCdProps.repoOwner := "<<YOUR_REPO_OWNER>>";
     CiCdProps.repoBranch := "master";
     CiCdProps.githubTokenSecretId := "/static-cdk/cicd/github_token";
     CiCdProps.buildAlertEmail := "<<YOUR_EMAIL_ADDRESS>>>" |}.

Definition main : M App.t unit :=
  App.add (StaticSiteStack.create (identifyResource staticSiteResourcePrefix "stack") staticSiteProps);;
  App.add (CiCdStack.create (identifyResource ciCdResourcePrefix "stack") ciCdProps).

(** The application after the entry point has run on [new cdk.App()]. *)
Definition app : Error + App.t := exec main [].
End Main.

(** ** Reading a topology *)

(** The constructs of one kind that a stack declares, in declaration order. *)
Definition select {A} (f : Construct -> option A) (st : Stack.t) : list A :=
  omap (fun n => f (Node.construct n)) (Stack.children st).

Definition asBucket c := match c with CBucket b => Some b | _ => None end.
Definition asOriginAccessIdentity c := match c with COriginAccessIdentity o => Some o | _ => None end.
Definition asCfnOutput c := match c with CCfnOutput o => Some o | _ => None end.
Definition asCertificate c := match c with CDnsValidatedCertificate x => Some x | _ => None end.
Definition asDistribution c := match c with CCloudFrontWebDistribution d => Some d | _ => None end.
Definition asARecord c := match c with CARecord r => Some r | _ => None end.
Definition asProject c := match c with CPipelineProject p => Some p | _ => None end.
Definition asTopic c := match c with CTopic t => Some t | _ => None end.
Definition asSubscription c := match c with CSubscription s => Some s | _ => None end.
Definition asRule c := match c with CRule r => Some r | _ => None end.
Definition asPipeline c := match c with CPipeline p => Some p | _ => None end.

Definition buckets := select asBucket.
Definition originAccessIdentities := select asOriginAccessIdentity.
Definition outputs := select asCfnOutput.
Definition certificates := select asCertificate.
Definition distributions := select asDistribution.
Definition aRecords := select asARecord.
Definition projects := select asProject.
Definition topics := select asTopic.
Definition subscriptions := select asSubscription.
Definition rules := select asRule.
Definition pipelines := select asPipeline.

(** The names of the DNS alias records of a stack. *)
Definition recordNames (st : Stack.t) : list string :=
  ARecord.recordName <$> aRecords st.

(** The construct ids of a stack, in declaration order. *)
Definition ids (st : Stack.t) : list string := Node.id <$> Stack.children st.

(** The ids of the stack outputs, and the ids of the other constructs. *)
Definition isOutput (n : Node.t) : bool :=
  match Node.construct n with CCfnOutput _ => true | _ => false end.

Definition outputIds (st : Stack.t) : list string :=
  Node.id <$> List.filter isOutput (Stack.children st).

Definition derivedIds (st : Stack.t) : list string :=
  Node.id <$> List.filter (fun n => negb (isOutput n)) (Stack.children st).

(** The logical names each builder hands to the Resource Namer. *)
Definition hostingLogicalNames : list string :=
  ["hosted-zone"; "cloudfront-OAI"; "site-bucket"; "site-certificate";
   "site-distribution"; "site-alias-record-01"; "site-alias-record-02";
   "bucket-deployment"].

Definition deliveryLogicalNames : list string :=
  ["build"; "notifications"; "notifications-subscription"; "build-failed"; "pipeline"].

Definition entryLogicalNames : list string := ["bucket-name"; "distribution-id"; "stack"].

(** The [www.] alias of the primary domain. *)
Definition wwwDomain (props : StaticSiteProps.t) : string :=
  "www." +:+ StaticSiteProps.domainName props.

Definition actionName (a : Action) : string :=
  match a with
  | SourceAction s => GitHubSourceAction.actionName s
  | BuildAction b => CodeBuildAction.actionName b
  end.

(** Every action that a pipeline declares, stage after stage. *)
Definition pipelineActions (p : Pipeline.t) : list Action :=
  flat_map StageProps.actions (Pipeline.stages p).

(** The provider makes every output of a stack readable by importers
    under its export name. *)
Definition publishedTo (res : Resolution) (st : Stack.t) : Prop :=
  Forall (fun o => imports res (CfnOutput.exportName o) = render res (CfnOutput.value o))
         (outputs st).

(** ** The strings of a stack *)

(** Every string with tokens that a construct holds. *)
Definition principalStrings (p : Principal) : list CfnString :=
  match p with
  | CanonicalUserPrincipal s | ArnPrincipal s | AccountPrincipal s => [s]
  | AnyPrincipal | ServicePrincipal _ => []
  end.

Definition statementStrings (s : PolicyStatement.t) : list CfnString :=
  PolicyStatement.resources s ++ flat_map principalStrings (PolicyStatement.principals s).

Definition strings (c : Construct) : list CfnString :=
  match c with
  | CBucket b => flat_map statementStrings (Bucket.policy b)
  | CCfnOutput o => [CfnOutput.value o]
  | CCloudFrontWebDistribution d =>
      let v := CloudFrontWebDistribution.viewerCertificate d in
      [ViewerCertificate.certificateArn v; ViewerCertificate.certRegion v;
       ViewerCertificate.certAccount v]
  | CPipelineProject p =>
      flat_map (fun kp => Phase.commands kp.2) (BuildSpec.phases (PipelineProject.buildSpec p))
      ++ flat_map statementStrings
           (from_option Role.principalPolicy [] (PipelineProject.role p))
  | _ => []
  end.

Definition asImport (f : Frag) : option string :=
  match f with ImportValue k => Some k | _ => None end.

(** The export names that a string imports. *)
Definition keysOf (s : CfnString) : list string := omap asImport s.

(** The export names that a stack imports, construct after construct. *)
Definition importKeys (st : Stack.t) : list string :=
  flat_map (fun n => flat_map keysOf (strings (Node.construct n))) (Stack.children st).

Definition deployments :=
  select (fun c => match c with CBucketDeployment d => Some d | _ => None end).
Definition hostedZones :=
  select (fun c => match c with CHostedZone z => Some z | _ => None end).

(** The hosting props with the alias flag set to [www]. *)
Definition withIncludeWWW (www : bool) (p : StaticSiteProps.t) : StaticSiteProps.t :=
  {| StaticSiteProps.env := StaticSiteProps.env p;
     StaticSiteProps.resourcePrefix := StaticSiteProps.resourcePrefix p;
     StaticSiteProps.hostedZoneName := StaticSiteProps.hostedZoneName p;
     StaticSiteProps.domainName := StaticSiteProps.domainName p;
     StaticSiteProps.includeWWW := www;
     StaticSiteProps.siteSourcePath := StaticSiteProps.siteSourcePath p;
     StaticSiteProps.staticSiteBucketNameOutputId := StaticSiteProps.staticSiteBucketNameOutputId p;
     StaticSiteProps.staticSiteDistributionIdOutputId :=
       StaticSiteProps.staticSiteDistributionIdOutputId p |}.

(** Delivery props whose environment names no account. *)
Definition accountlessProps : CiCdProps.t :=
  {| CiCdProps.env := Some {| Environment.account := None; Environment.region := None |};
     CiCdProps.resourcePrefix := "cdk-web-cicd";
     CiCdProps.distributionId := lit "E2QWRUHAPOMQZL";
     CiCdProps.bucket := lit "example.com";
     CiCdProps.repo := "repo";
     CiCdProps.repoOwner := "owner";
     CiCdProps.repoBranch := "master";
     CiCdProps.githubTokenSecretId := "/static-cdk/cicd/github_token";
     CiCdProps.buildAlertEmail := "ops@example.com" |}.

(** ** Actions of a policy statement *)

(** Whether a pattern of a statement covers an action: the pattern is the
    action itself, or a prefix of it followed by a star. *)
Fixpoint covers (pattern action : string) : bool :=
  match pattern with
  | "" => match action with "" => true | _ => false end
  | String c p =>
      match p, Ascii.eqb c "*" with
      | "", true => true
      | _, _ =>
          match action with
          | "" => false
          | String d a => Ascii.eqb c d && covers p a
          end
      end
  end.

(** A statement that allows the action. *)
Definition allowsAction (s : PolicyStatement.t) (action : string) : bool :=
  match PolicyStatement.effectOf s with
  | ALLOW => existsb (fun p => covers p action) (PolicyStatement.actions s)
  | DENY => false
  end.

(** ** What the provider resolves *)

(** The provider creates a bucket under the name given in its props, and
    that name is what the bucket's name token resolves to. *)
Definition namesBuckets (res : Resolution) (st : Stack.t) : Prop :=
  Forall (fun p => match Node.construct p.2 with
                   | CBucket b => attrs res p.1 "bucketName" = Bucket.bucketName b
                   | _ => True
                   end)
         (imap pair (Stack.children st)).

(** ** Sample inputs *)

(** The environment that the entry point gives both stacks. *)
Definition entryEnvironment : Environment.t :=
  {| Environment.account := Some Main.accountId; Environment.region := Some Main.region |}.

(** The domain of the specification's examples. *)
Definition exampleProps (www : bool) : StaticSiteProps.t :=
  {| StaticSiteProps.env := None;
     StaticSiteProps.resourcePrefix := "site";
     StaticSiteProps.hostedZoneName := "example.com";
     StaticSiteProps.domainName := "example.com";
     StaticSiteProps.includeWWW := www;
     StaticSiteProps.siteSourcePath := "dist";
     StaticSiteProps.staticSiteBucketNameOutputId := "site-bucket-name";
     StaticSiteProps.staticSiteDistributionIdOutputId := "site-distribution-id" |}.

(** A provider that has created a hosting stack whose bucket bears the
    name [domain] and whose bucket-name output is exported as
    [bucketKey]: the export and the name token of a bucket resolve to the
    name, every other token to an identifier of the provider's own. *)
Definition resolutionFor (bucketKey domain : string) : Resolution :=
  {| imports := fun key => if String.eqb key bucketKey then domain else "E2QWRUHAPOMQZL";
     attrs := fun _ attr => if String.eqb attr "bucketName" then domain else "E2QWRUHAPOMQZL";
     pseudos := fun _ => "" |}.

Definition entryResolution : Resolution :=
  resolutionFor Main.STATIC_SITE_BUCKET_NAME_OUTPUT_ID
                (StaticSiteProps.domainName Main.staticSiteProps).

(** Hosting props for [example.com] in a named account and region. *)
Definition exampleHostingProps : StaticSiteProps.t :=
  {| StaticSiteProps.env := Some {| Environment.account := Some "123456789012";
                                    Environment.region := Some "eu-west-1" |};
     StaticSiteProps.resourcePrefix := "site";
     StaticSiteProps.hostedZoneName := "example.com";
     StaticSiteProps.domainName := "example.com";
     StaticSiteProps.includeWWW := false;
     StaticSiteProps.siteSourcePath := "../dist";
     StaticSiteProps.staticSiteBucketNameOutputId := "site-bucket-name";
     StaticSiteProps.staticSiteDistributionIdOutputId := "site-distribution-id" |}.

(** Delivery props wired to that hosting stack as the entry point wires
    its own. *)
Definition exampleDeliveryProps : CiCdProps.t :=
  {| CiCdProps.env := Some {| Environment.account := Some "123456789012";
                              Environment.region := Some "eu-west-1" |};
     CiCdProps.resourcePrefix := "delivery";
     CiCdProps.distributionId := Fn.importValue "site-distribution-id";
     CiCdProps.bucket := Fn.importValue "site-bucket-name";
     CiCdProps.repo := "repo";
     CiCdProps.repoOwner := "owner";
     CiCdProps.repoBranch := "master";
     CiCdProps.githubTokenSecretId := "/static-cdk/cicd/github_token";
     CiCdProps.buildAlertEmail := "ops@example.com" |}.

(** ** Running a constructor *)

(** Evaluates the constructor in a goal [exists st, ctor = inr st /\ _]
    and continues with the stack it built. *)
Ltac run_constructor :=
  lazymatch goal with
  | |- exists st, ?c = inr st /\ _ =>
      let r := eval vm_compute in c in
      lazymatch r with
      | inr ?st => exists st; split; [vm_compute; reflexivity |]
      end
  end.

(** ** Facts about strings *)

Section Strings.
Implicit Types s t u : string.

Lemma append_cons a s t : String a s +:+ t = String a (s +:+ t).
Proof. reflexivity. Qed.

Lemma append_assoc s t u : (s +:+ t) +:+ u = s +:+ (t +:+ u).
Proof.
  induction s as [|a s IH]; [reflexivity |].
  now rewrite !append_cons, IH.
Qed.

Lemma append_nil_r s : s +:+ "" = s.
Proof.
  induction s as [|a s IH]; [reflexivity |].
  now rewrite append_cons, IH.
Qed.

Lemma length_append s t : String.length (s +:+ t) = String.length s + String.length t.
Proof.
  induction s as [|a s IH]; [reflexivity |].
  rewrite append_cons. cbn. now rewrite IH.
Qed.

(** A string is never its own proper extension. *)
Lemma prefixed_neq s t : s <> "" -> s +:+ t <> t.
Proof.
  intros Hs E. apply (f_equal String.length) in E. rewrite length_append in E.
  destruct s; [congruence | cbn in E; lia].
Qed.

Lemma www_neq t : "www." +:+ t <> t.
Proof. now apply prefixed_neq. Qed.

Lemma render_app env (a b : CfnString) : render env (a ++ b) = render env a +:+ render env b.
Proof.
  induction a as [|f a IH]; [reflexivity |].
  cbn [render app]. now rewrite IH, append_assoc.
Qed.
End Strings.

(** ** Injectivity of the Resource Namer *)

Lemma identifyResource_inj prefix : Inj (=) (=) (identifyResource prefix).
Proof.
  intros a b E. unfold identifyResource in E.
  apply (inj (String.app prefix)) in E.
  now apply (inj (String.app "-")) in E.
Qed.

Lemma NoDup_identifyResource prefix (names : list string) :
  NoDup names -> NoDup (identifyResource prefix <$> names).
Proof. intros H. apply (NoDup_fmap_2 _), H. Qed.

(** C4. The Resource Namer is a function of its two arguments (the same
    pair always derives the same identifier), it is injective in the
    logical name once the prefix is fixed, so that the logical names used
    by the hosting builder, by the delivery builder and by the entry
    point derive pairwise distinct identifiers under any prefix, and
    prefix [cdk-web-static] with logical name [bucket-name] derives
    [cdk-web-static-bucket-name]: the prefix, a hyphen, the logical name. *)
Theorem identifyResource_deterministic_injective :
  (forall p p' n n', p = p' -> n = n' -> identifyResource p n = identifyResource p' n') /\
  (forall p n n', identifyResource p n = identifyResource p n' -> n = n') /\
  (forall p, NoDup (identifyResource p <$> hostingLogicalNames)) /\
  (forall p, NoDup (identifyResource p <$> deliveryLogicalNames)) /\
  (forall p, NoDup (identifyResource p <$> entryLogicalNames)) /\
  (forall p n, identifyResource p n = p +:+ "-" +:+ n) /\
  identifyResource "cdk-web-static" "bucket-name" = "cdk-web-static-bucket-name".
Proof.
  split; [now intros p p' n n' -> -> |].
  split; [intros p n n' E; exact (identifyResource_inj p _ _ E) |].
  split; [intros p; apply NoDup_identifyResource; compute_done |].
  split; [intros p; apply NoDup_identifyResource; compute_done |].
  split; [intros p; apply NoDup_identifyResource; compute_done |].
  split; reflexivity.
Qed.

(** The identifiers under which the builders register their constructs are
    the Resource Namer's, at the logical names listed above; the two stack
    outputs are registered under the keys given in the props. *)
Lemma StaticSiteStack_ids id props :
  StaticSiteProps.includeWWW props = true ->
  exists st, StaticSiteStack.create id props = inr st /\
    derivedIds st = identifyResource (StaticSiteProps.resourcePrefix props) <$> hostingLogicalNames /\
    outputIds st = [StaticSiteProps.staticSiteBucketNameOutputId props;
                    StaticSiteProps.staticSiteDistributionIdOutputId props].
Proof.
  destruct props as [e p z d w src k1 k2]; cbn; intros ->.
  run_constructor. split; vm_compute; reflexivity.
Qed.

Lemma CiCdStack_ids id props :
  is_Some (CiCdProps.env props) ->
  exists st, CiCdStack.create id props = inr st /\
    ids st = identifyResource (CiCdProps.resourcePrefix props) <$> deliveryLogicalNames.
Proof.
  destruct props as [[e|] p di b r ro rb g m]; intros [? [=]].
  eexists. split; vm_compute; reflexivity.
Qed.

(** ** The hosting topology *)

Section Hosting.
Import StaticSiteProps.
Variable id : string.

(** C1. Whatever the flag, the three alias-dependent layers agree on the
    [www.] domain: it is among the certificate's subject alternative
    names exactly when [includeWWW] is true, it names a DNS alias record
    exactly when [includeWWW] is true, and likewise for the aliases of
    the viewer certificate; so it is never on one layer without the
    other. *)
Theorem www_alias_layers_agree (props : StaticSiteProps.t) :
  exists st, StaticSiteStack.create id props = inr st /\
  exists cert dist,
    certificates st = [cert] /\
    distributions st = [dist] /\
    (In (wwwDomain props) (DnsValidatedCertificate.subjectAlternativeNames cert)
       <-> includeWWW props = true) /\
    (In (wwwDomain props) (recordNames st) <-> includeWWW props = true) /\
    (In (wwwDomain props)
        (ViewerCertificate.aliases (CloudFrontWebDistribution.viewerCertificate dist))
       <-> includeWWW props = true) /\
    (In (wwwDomain props) (DnsValidatedCertificate.subjectAlternativeNames cert)
       <-> In (wwwDomain props) (recordNames st)).
Proof.
  destruct props as [e p z d [|] src k1 k2]; unfold wwwDomain; cbn [domainName includeWWW];
    run_constructor; do 2 eexists; (split; [reflexivity |]); (split; [reflexivity |]);
    cbn -[String.app].
  - repeat split; auto.
  - pose proof (www_neq d) as Hd.
    repeat split; intros H; try discriminate; intuition congruence.
Qed.

(** C2. Without the [www] alias the topology holds exactly one DNS alias
    record, named by the primary domain, and the certificate has no
    subject alternative name. *)
Theorem no_www_single_record_no_alternative_names (props : StaticSiteProps.t) :
  includeWWW props = false ->
  exists st, StaticSiteStack.create id props = inr st /\
  exists rec cert,
    aRecords st = [rec] /\
    ARecord.recordName rec = domainName props /\
    certificates st = [cert] /\
    DnsValidatedCertificate.domainName cert = domainName props /\
    DnsValidatedCertificate.subjectAlternativeNames cert = [].
Proof.
  destruct props as [e p z d w src k1 k2]; cbn [domainName includeWWW]; intros ->.
  run_constructor. do 2 eexists. repeat split; reflexivity.
Qed.

(** C5 (as amended). The storage target is created with public read
    access off and all public access blocked.  The constructor puts into
    its resource policy a statement that allows [s3:GetObject] on the
    objects of the bucket to the canonical user of the origin access
    identity, the very identity through which the distribution reaches
    the bucket.  No statement of the policy allows [s3:GetObject] to
    anyone else; the only other statement of the policy is the one that
    [autoDeleteObjects] brings, for the role of the provider that empties
    the bucket. *)
Theorem storage_target_private_read_by_origin_identity (props : StaticSiteProps.t) :
  exists st, StaticSiteStack.create id props = inr st /\
  exists hb b ho o dist oc stmt,
    buckets st = [b] /\
    construct_at hb st = Some (CBucket b) /\
    Bucket.publicReadAccess b = false /\
    Bucket.blockPublicAccess b = BLOCK_ALL /\
    distributions st = [dist] /\
    CloudFrontWebDistribution.originConfigs dist = [oc] /\
    S3OriginConfig.s3BucketSource (SourceConfiguration.s3OriginSource oc) = hb /\
    S3OriginConfig.originAccessIdentity (SourceConfiguration.s3OriginSource oc) = ho /\
    construct_at ho st = Some (COriginAccessIdentity o) /\
    originAccessIdentities st = [o] /\
    In stmt (Bucket.policy b) /\
    PolicyStatement.effectOf stmt = ALLOW /\
    PolicyStatement.actions stmt = ["s3:GetObject"] /\
    PolicyStatement.resources stmt = [Bucket.arnForObjects hb "*"] /\
    PolicyStatement.principals stmt
      = [CanonicalUserPrincipal
           (OriginAccessIdentity.cloudFrontOriginAccessIdentityS3CanonicalUserId ho)] /\
    (forall s, In s (Bucket.policy b) -> allowsAction s "s3:GetObject" = true ->
       PolicyStatement.principals s
         = [CanonicalUserPrincipal
              (OriginAccessIdentity.cloudFrontOriginAccessIdentityS3CanonicalUserId ho)]) /\
    (forall s, In s (Bucket.policy b) -> s <> stmt -> s = Bucket.autoDeleteStatement hb).
Proof.
  destruct props as [e p z d [|] src k1 k2]; run_constructor;
    exists 2; eexists; exists 1; do 4 eexists;
    do 10 (split; [reflexivity |]);
    (split; [right; left; reflexivity |]);
    do 4 (split; [reflexivity |]);
    (split; [intros s [<- | [<- | []]]; [discriminate | reflexivity]
            | intros s [<- | [<- | []]] Hne; [reflexivity | contradiction Hne; reflexivity]]).
Qed.

(** C8. The distribution has one origin: the storage target, reached
    through the origin access identity.  Its viewer certificate is the
    certificate issued for the primary domain, with TLS 1.2 (2021) as
    the minimum protocol version.  Its single behaviour compresses and
    allows GET, HEAD and OPTIONS only: no mutating verb passes. *)
Theorem distribution_bound_tls_compress_read_only (props : StaticSiteProps.t) :
  exists st, StaticSiteStack.create id props = inr st /\
  exists hb b ho o hc cert dist oc bh,
    distributions st = [dist] /\
    CloudFrontWebDistribution.originConfigs dist = [oc] /\
    S3OriginConfig.s3BucketSource (SourceConfiguration.s3OriginSource oc) = hb /\
    construct_at hb st = Some (CBucket b) /\
    buckets st = [b] /\
    S3OriginConfig.originAccessIdentity (SourceConfiguration.s3OriginSource oc) = ho /\
    construct_at ho st = Some (COriginAccessIdentity o) /\
    ViewerCertificate.certificateArn (CloudFrontWebDistribution.viewerCertificate dist)
      = DnsValidatedCertificate.certificateArn hc /\
    construct_at hc st = Some (CDnsValidatedCertificate cert) /\
    DnsValidatedCertificate.domainName cert = domainName props /\
    ViewerCertificate.securityPolicy (CloudFrontWebDistribution.viewerCertificate dist)
      = TLS_V1_2_2021 /\
    SourceConfiguration.behaviors oc = [bh] /\
    Behavior.isDefaultBehavior bh = true /\
    Behavior.compress bh = true /\
    Behavior.allowedMethods bh = GET_HEAD_OPTIONS /\
    allowedVerbs (Behavior.allowedMethods bh) = [GET; HEAD; OPTIONS] /\
    (forall v, In v (allowedVerbs (Behavior.allowedMethods bh)) -> mutating v = false).
Proof.
  destruct props as [e p z d [|] src k1 k2]; run_constructor;
    exists 2; eexists; exists 1; eexists; exists 4; do 4 eexists;
    repeat (split; [reflexivity |]);
    intros v [<- | [<- | [<- | []]]]; reflexivity.
Qed.
End Hosting.

(** The entry point's hosting props switch the alias off. *)
Lemma no_www_single_record_no_alternative_names_witness :
  exists st, StaticSiteStack.create "cdk-web-static-stack" Main.staticSiteProps = inr st /\
  exists rec cert,
    aRecords st = [rec] /\
    ARecord.recordName rec = "<<YOUR_DOMAIN_NAME>>" /\
    certificates st = [cert] /\
    DnsValidatedCertificate.domainName cert = "<<YOUR_DOMAIN_NAME>>" /\
    DnsValidatedCertificate.subjectAlternativeNames cert = [].
Proof.
  apply (no_www_single_record_no_alternative_names "cdk-web-static-stack" Main.staticSiteProps).
  reflexivity.
Defined.


(** ** The delivery topology *)

Lemma arn_not_wildcard (x : string) : "arn:" +:+ x <> "*".
Proof. intros H. cbv [String.append] in H. discriminate H. Qed.

Section Delivery.
Import CiCdProps.
Variable id : string.

(** C6 (as amended). Of the statements in the policy of the build role,
    the builder declares exactly two; the others are the library's own.
    The first of the two allows the six object and bucket actions on the
    bucket ARN formed from the bucket of the props and on its objects;
    the second allows [cloudfront:CreateInvalidation] on the distribution
    ARN formed from the account of the stack's environment and the
    distribution identifier of the props.  The resources are built from
    those identifiers and fixed text only, the one wildcard the builder
    writes is the object suffix, and however the identifiers resolve no
    resource is the bare wildcard. *)
Theorem build_role_two_scoped_statements (props : CiCdProps.t) (e : Environment.t) :
  env props = Some e ->
  exists st, CiCdStack.create id props = inr st /\
  exists prj role s3 cf,
    projects st = [prj] /\
    PipelineProject.role prj = Some role /\
    Role.principalPolicy role = [s3; cf] /\
    PolicyStatement.effectOf s3 = ALLOW /\
    PolicyStatement.actions s3 =
      ["s3:GetObject"; "s3:GetBucketLocation"; "s3:ListBucket";
       "s3:PutObject"; "s3:DeleteObject"; "s3:PutObjectAcl"] /\
    PolicyStatement.effectOf cf = ALLOW /\
    PolicyStatement.actions cf = ["cloudfront:CreateInvalidation"] /\
    PolicyStatement.resources s3
      = [ [Text "arn:aws:s3:::"] ++ bucket props;
          [Text "arn:aws:s3:::"] ++ bucket props ++ [Text "/*"] ] /\
    PolicyStatement.resources cf
      = [ [Text ("arn:aws:cloudfront::" +:+ interpolate (Environment.account e)
                   +:+ ":distribution/")] ++ distributionId props ] /\
    forall res : Resolution,
      render res <$> PolicyStatement.resources s3 =
        ["arn:aws:s3:::" +:+ render res (bucket props);
         "arn:aws:s3:::" +:+ render res (bucket props) +:+ "/*"] /\
      render res <$> PolicyStatement.resources cf =
        ["arn:aws:cloudfront::" +:+ interpolate (Environment.account e) +:+ ":distribution/"
           +:+ render res (distributionId props)] /\
      (forall s r, In s (Role.principalPolicy role) -> In r (PolicyStatement.resources s) ->
         render res r <> "*").
Proof.
  destruct props as [[e'|] p di b r ro rb g m]; cbn [env]; intros [= ->].
  destruct e as [a rg].
  run_constructor. do 4 eexists. repeat (split; [reflexivity |]).
  intros res.
  assert (render res (b ++ [Text "/*"]) = render res b +:+ "/*") as Hobj
    by now rewrite render_app.
  split; [| split].
  - change (["arn:aws:s3:::" +:+ render res b;
             "arn:aws:s3:::" +:+ render res (b ++ [Text "/*"])]
            = ["arn:aws:s3:::" +:+ render res b; "arn:aws:s3:::" +:+ render res b +:+ "/*"]).
    now rewrite Hobj.
  - change ([("arn:aws:cloudfront::" +:+ interpolate a +:+ ":distribution/") +:+ render res di]
            = ["arn:aws:cloudfront::" +:+ interpolate a +:+ ":distribution/" +:+ render res di]).
    now rewrite !append_assoc.
  - intros s x [<- | [<- | []]] Hx; cbn [PolicyStatement.resources] in Hx;
      repeat (destruct Hx as [<- | Hx]); try contradiction;
      apply arn_not_wildcard.
Qed.

(** C7. The pipeline has a source stage and then a build stage, whose one
    action runs the build project.  That project installs the
    dependencies, runs the build, and only then, in its last phase,
    synchronises [dist] into the bucket it was given, deleting what is
    not in [dist], and creates an invalidation of every path of the
    distribution it was given. *)
Theorem build_stage_syncs_then_invalidates (props : CiCdProps.t) (e : Environment.t) :
  env props = Some e ->
  exists st, CiCdStack.create id props = inr st /\
  exists hp prj pl src bld ba sync inval,
    pipelines st = [pl] /\
    Pipeline.stages pl = [src; bld] /\
    StageProps.stageName src = "Source" /\
    StageProps.stageName bld = "Build" /\
    StageProps.actions bld = [BuildAction ba] /\
    CodeBuildAction.project ba = hp /\
    construct_at hp st = Some (CPipelineProject prj) /\
    projects st = [prj] /\
    BuildSpec.commandsOf (PipelineProject.buildSpec prj) "install" = [lit "npm install"] /\
    BuildSpec.commandsOf (PipelineProject.buildSpec prj) "build" = [lit "npm run build"] /\
    BuildSpec.commandsOf (PipelineProject.buildSpec prj) "post_build" = [sync; inval] /\
    BuildSpec.commandSequence (PipelineProject.buildSpec prj)
      = [lit "npm install"; lit "npm run build"; sync; inval] /\
    forall res : Resolution,
      render res sync =
        "aws s3 sync " +:+ dq +:+ "dist" +:+ dq +:+ " " +:+ dq +:+ "s3://"
          +:+ render res (bucket props) +:+ dq +:+ " --delete" /\
      render res inval =
        "aws cloudfront create-invalidation --distribution-id "
          +:+ render res (distributionId props) +:+ " --paths " +:+ dq +:+ "/*" +:+ dq.
Proof.
  destruct props as [[e'|] p di b r ro rb g m]; cbn [env]; intros [= ->].
  destruct e as [a rg].
  run_constructor. exists 0. do 7 eexists. repeat (split; [reflexivity |]).
  intros res. split.
  - change ("aws s3 sync " +:+ dq +:+ "dist" +:+ dq +:+ " " +:+ dq +:+ "s3://"
              +:+ render res (b ++ [Text (dq +:+ " --delete")])
            = "aws s3 sync " +:+ dq +:+ "dist" +:+ dq +:+ " " +:+ dq +:+ "s3://"
              +:+ render res b +:+ dq +:+ " --delete").
    now rewrite render_app.
  - change ("aws cloudfront create-invalidation --distribution-id "
              +:+ render res (di ++ [Text (" --paths " +:+ dq +:+ "/*" +:+ dq)])
            = "aws cloudfront create-invalidation --distribution-id "
              +:+ render res di +:+ " --paths " +:+ dq +:+ "/*" +:+ dq).
    now rewrite render_app.
Qed.

(** C9. The delivery stack declares one event rule: it fires when a build
    of the one build project fails, and its only target is the
    notification topic.  The one subscription to that topic is the email
    subscription of the given alert address.  The stack declares nothing
    besides the project, the topic, the subscription, the rule and the
    pipeline, and the pipeline declares the source action and the build
    action only: there is no retry and no rollback. *)
Theorem single_failure_path (props : CiCdProps.t) (e : Environment.t) :
  env props = Some e ->
  exists st, CiCdStack.create id props = inr st /\
  exists hp prj ht tp sub rule pl,
    rules st = [rule] /\
    Rule.on rule = BuildFailed /\
    Rule.project rule = hp /\
    construct_at hp st = Some (CPipelineProject prj) /\
    projects st = [prj] /\
    Rule.targets rule = [SnsTopic ht] /\
    construct_at ht st = Some (CTopic tp) /\
    topics st = [tp] /\
    subscriptions st = [sub] /\
    Subscription.topic sub = ht /\
    Subscription.protocol sub = EMAIL /\
    Subscription.endpoint sub = buildAlertEmail props /\
    pipelines st = [pl] /\
    actionName <$> pipelineActions pl = ["SOURCE"; "BUILD_DEPLOY"] /\
    Node.construct <$> Stack.children st
      = [CPipelineProject prj; CTopic tp; CSubscription sub; CRule rule; CPipeline pl].
Proof.
  destruct props as [[e'|] p di b r ro rb g m]; cbn [env]; intros [= ->].
  destruct e as [a rg].
  run_constructor. exists 0. eexists. exists 1. do 4 eexists.
  repeat split; reflexivity.
Qed.
End Delivery.


(** ** The two stacks together *)

Lemma namesBuckets_lookup res st h b :
  namesBuckets res st ->
  construct_at h st = Some (CBucket b) ->
  attrs res h "bucketName" = Bucket.bucketName b.
Proof.
  unfold namesBuckets, construct_at. intros Hn Hc.
  apply fmap_Some in Hc as (n & Hl & Hc).
  apply (Forall_lookup_1 _ _ h (h, n)) in Hn.
  - cbn in Hn. now rewrite <- Hc in Hn.
  - rewrite list_lookup_imap. apply fmap_Some. exists n. split; [exact Hl | reflexivity].
Qed.

(** C3. The hosting stack publishes two outputs, exported under the two
    keys of its props.  The entry point gives the delivery stack, as
    bucket and as distribution identifier, the import of the bucket-name
    key and the import of the distribution-id key of the hosting props.
    A delivery stack given two such imports holds them as they are
    wherever it names the bucket or the distribution: in the two
    post-build commands and in the resources of its two statements the
    identifier is the reference by key, between fixed text, and the
    stack imports these two keys and no other. *)
Theorem delivery_identifiers_are_output_references :
  (forall id props,
     exists st, StaticSiteStack.create id props = inr st /\
       CfnOutput.exportName <$> outputs st
         = [StaticSiteProps.staticSiteBucketNameOutputId props;
            StaticSiteProps.staticSiteDistributionIdOutputId props]) /\
  CiCdProps.bucket Main.ciCdProps
    = [ImportValue (StaticSiteProps.staticSiteBucketNameOutputId Main.staticSiteProps)] /\
  CiCdProps.distributionId Main.ciCdProps
    = [ImportValue (StaticSiteProps.staticSiteDistributionIdOutputId Main.staticSiteProps)] /\
  StaticSiteProps.staticSiteBucketNameOutputId Main.staticSiteProps
    = identifyResource "cdk-web-static" "bucket-name" /\
  StaticSiteProps.staticSiteDistributionIdOutputId Main.staticSiteProps
    = identifyResource "cdk-web-static" "distribution-id" /\
  (forall cid cprops e bucketKey distributionKey,
     CiCdProps.env cprops = Some e ->
     CiCdProps.bucket cprops = Fn.importValue bucketKey ->
     CiCdProps.distributionId cprops = Fn.importValue distributionKey ->
     exists st, CiCdStack.create cid cprops = inr st /\
     exists prj role s3 cf sync inval,
       projects st = [prj] /\
       BuildSpec.commandsOf (PipelineProject.buildSpec prj) "post_build" = [sync; inval] /\
       sync = [ Text ("aws s3 sync " +:+ dq +:+ "dist" +:+ dq +:+ " " +:+ dq +:+ "s3://");
                ImportValue bucketKey;
                Text (dq +:+ " --delete") ] /\
       inval = [ Text "aws cloudfront create-invalidation --distribution-id ";
                 ImportValue distributionKey;
                 Text (" --paths " +:+ dq +:+ "/*" +:+ dq) ] /\
       PipelineProject.role prj = Some role /\
       Role.principalPolicy role = [s3; cf] /\
       PolicyStatement.resources s3
         = [ [Text "arn:aws:s3:::"; ImportValue bucketKey];
             [Text "arn:aws:s3:::"; ImportValue bucketKey; Text "/*"] ] /\
       PolicyStatement.resources cf
         = [ [Text ("arn:aws:cloudfront::" +:+ interpolate (Environment.account e)
                      +:+ ":distribution/");
              ImportValue distributionKey] ] /\
       (forall key, In key (importKeys st) <-> key = bucketKey \/ key = distributionKey)).
Proof.
  split.
  { intros id [e p z d [|] src k1 k2]; run_constructor; reflexivity. }
  do 4 (split; [reflexivity |]).
  intros cid [[e'|] p di b r ro rb g m] e bk dk;
    cbn [CiCdProps.env CiCdProps.bucket CiCdProps.distributionId]; intros [= ->] -> ->.
  destruct e as [a rg].
  run_constructor. do 6 eexists. do 8 (split; [reflexivity |]).
  intros key. vm_compute. intuition congruence.
Qed.

(** C10. The bucket of the hosting stack is given the primary domain as
    its name.  The first output of the stack is exported under the
    bucket-name key and its value is the name of that bucket.  The
    provider creates the bucket under the name given, so the value it
    publishes is the primary domain, and a delivery stack that imports
    the key synchronises into the bucket named by the primary domain. *)
Theorem bucket_named_by_primary_domain (id : string) (props : StaticSiteProps.t) :
  exists st, StaticSiteStack.create id props = inr st /\
  exists hb b out rest,
    buckets st = [b] /\
    construct_at hb st = Some (CBucket b) /\
    Bucket.bucketName b = StaticSiteProps.domainName props /\
    outputs st = out :: rest /\
    CfnOutput.exportName out = StaticSiteProps.staticSiteBucketNameOutputId props /\
    CfnOutput.value out = Bucket.bucketNameRef hb /\
    (forall res, namesBuckets res st ->
       render res (CfnOutput.value out) = StaticSiteProps.domainName props) /\
    (forall res cid cprops e,
       namesBuckets res st ->
       publishedTo res st ->
       CiCdProps.env cprops = Some e ->
       CiCdProps.bucket cprops
         = Fn.importValue (StaticSiteProps.staticSiteBucketNameOutputId props) ->
       exists dst, CiCdStack.create cid cprops = inr dst /\
       exists prj sync inval,
         projects dst = [prj] /\
         BuildSpec.commandsOf (PipelineProject.buildSpec prj) "post_build" = [sync; inval] /\
         render res sync =
           "aws s3 sync " +:+ dq +:+ "dist" +:+ dq +:+ " " +:+ dq +:+ "s3://"
             +:+ StaticSiteProps.domainName props +:+ dq +:+ " --delete").
Proof.
  destruct props as [e p z d w src k1 k2]; cbn [StaticSiteProps.domainName
    StaticSiteProps.staticSiteBucketNameOutputId].
  destruct w; run_constructor; exists 2; do 3 eexists;
    repeat (split; [reflexivity |]);
    match goal with
    | |- (forall res, namesBuckets res ?s -> _) /\ _ =>
        assert (forall res, namesBuckets res s -> attrs res 2 "bucketName" = d) as Hname
          by (intros res Hn;
              exact (namesBuckets_lookup res s 2 _ Hn eq_refl))
    end;
    (split; [intros res Hn; change (attrs res 2 "bucketName" +:+ "" = d);
             now rewrite append_nil_r, (Hname res Hn) |]);
    intros res cid [[e'|] cp di b r ro rb g m] e0 Hn Hpub;
    cbn [CiCdProps.env CiCdProps.bucket];
    intros [= ->] ->;
    apply Forall_cons_1, proj1 in Hpub; cbn [CfnOutput.exportName CfnOutput.value] in Hpub;
    change (imports res k1 = attrs res 2 "bucketName" +:+ "") in Hpub;
    rewrite append_nil_r, (Hname res Hn) in Hpub;
    run_constructor; do 3 eexists; repeat (split; [reflexivity |]);
    change ("aws s3 sync " +:+ dq +:+ "dist" +:+ dq +:+ " " +:+ dq +:+ "s3://"
              +:+ imports res k1 +:+ dq +:+ " --delete"
            = "aws s3 sync " +:+ dq +:+ "dist" +:+ dq +:+ " " +:+ dq +:+ "s3://"
              +:+ d +:+ dq +:+ " --delete");
    now rewrite Hpub.
Qed.


(** ** The entry point's stacks, and the examples of the specification *)

(** The build role of the entry point's delivery stack: two statements,
    over the imported bucket and the imported distribution. *)
Lemma build_role_two_scoped_statements_witness :
  exists st prj role,
    CiCdStack.create "cdk-web-cicd-stack" Main.ciCdProps = inr st /\
    projects st = [prj] /\
    PipelineProject.role prj = Some role /\
    length (Role.principalPolicy role) = 2 /\
    forall res : Resolution,
      render res <$> flat_map PolicyStatement.resources (Role.principalPolicy role) =
        ["arn:aws:s3:::" +:+ imports res "cdk-web-static-bucket-name";
         "arn:aws:s3:::" +:+ imports res "cdk-web-static-bucket-name" +:+ "/*";
         "arn:aws:cloudfront::<<YOUR_ACCOUNT_ID>>:distribution/"
           +:+ imports res "cdk-web-static-distribution-id"].
Proof.
  destruct (build_role_two_scoped_statements "cdk-web-cicd-stack" Main.ciCdProps
              entryEnvironment eq_refl)
    as (st & Hst & prj & role & s3 & cf & Hp & Hr & Hpol & _ & _ & _ & _ & _ & _ & Hres).
  exists st, prj, role. rewrite Hpol.
  repeat (split; [assumption || reflexivity |]).
  intros res. destruct (Hres res) as (H3 & Hc & _).
  cbn [flat_map]. rewrite app_nil_r, fmap_app, H3, Hc.
  cbn [render renderFrag CiCdProps.bucket CiCdProps.distributionId Main.ciCdProps
       Main.staticSiteBucket Main.staticSiteDistributionId Fn.importValue].
  now rewrite !append_nil_r.
Defined.

(** The post-build commands of the entry point's delivery stack. *)
Lemma build_stage_syncs_then_invalidates_witness :
  exists st prj sync inval,
    CiCdStack.create "cdk-web-cicd-stack" Main.ciCdProps = inr st /\
    projects st = [prj] /\
    BuildSpec.commandSequence (PipelineProject.buildSpec prj)
      = [lit "npm install"; lit "npm run build"; sync; inval] /\
    forall res : Resolution,
      render res sync =
        "aws s3 sync " +:+ dq +:+ "dist" +:+ dq +:+ " " +:+ dq +:+ "s3://"
          +:+ imports res "cdk-web-static-bucket-name" +:+ dq +:+ " --delete" /\
      render res inval =
        "aws cloudfront create-invalidation --distribution-id "
          +:+ imports res "cdk-web-static-distribution-id" +:+ " --paths " +:+ dq +:+ "/*" +:+ dq.
Proof.
  destruct (build_stage_syncs_then_invalidates "cdk-web-cicd-stack" Main.ciCdProps
              entryEnvironment eq_refl)
    as (st & Hst & hp & prj & pl & src & bld & ba & sync & inval
          & _ & _ & _ & _ & _ & _ & _ & Hp & _ & _ & _ & Hseq & Hres).
  exists st, prj, sync, inval.
  repeat (split; [assumption |]).
  intros res. destruct (Hres res) as (Hs & Hi). rewrite Hs, Hi.
  cbn [render renderFrag CiCdProps.bucket CiCdProps.distributionId Main.ciCdProps
       Main.staticSiteBucket Main.staticSiteDistributionId Fn.importValue].
  now rewrite !append_nil_r.
Defined.

(** The failure path of the entry point's delivery stack. *)
Lemma single_failure_path_witness :
  exists st rule sub,
    CiCdStack.create "cdk-web-cicd-stack" Main.ciCdProps = inr st /\
    rules st = [rule] /\
    Rule.on rule = BuildFailed /\
    subscriptions st = [sub] /\
    Rule.targets rule = [SnsTopic (Subscription.topic sub)] /\
    Subscription.endpoint sub = "<<YOUR_EMAIL_ADDRESS>>>".
Proof.
  destruct (single_failure_path "cdk-web-cicd-stack" Main.ciCdProps entryEnvironment eq_refl)
    as (st & Hst & hp & prj & ht & tp & sub & rule & pl
          & Hr & Hon & _ & _ & _ & Ht & _ & _ & Hs & Htopic & _ & Hend & _).
  exists st, rule, sub. rewrite Htopic.
  repeat (split; [assumption |]). exact Hend.
Defined.

(** Domain [example.com] with the alias: both names on every layer. *)
Example example_com_with_www :
  exists st, StaticSiteStack.create "site-stack" (exampleProps true) = inr st /\
    recordNames st = ["example.com"; "www.example.com"] /\
    (fun c => DnsValidatedCertificate.domainName c
                :: DnsValidatedCertificate.subjectAlternativeNames c) <$> certificates st
      = [["example.com"; "www.example.com"]] /\
    (fun d => ViewerCertificate.aliases (CloudFrontWebDistribution.viewerCertificate d))
      <$> distributions st
      = [["example.com"; "www.example.com"]].
Proof. run_constructor. repeat split; vm_compute; reflexivity. Qed.

(** Domain [example.com] without the alias: the primary domain only. *)
Example example_com_without_www :
  exists st, StaticSiteStack.create "site-stack" (exampleProps false) = inr st /\
    recordNames st = ["example.com"] /\
    (fun c => DnsValidatedCertificate.domainName c
                :: DnsValidatedCertificate.subjectAlternativeNames c) <$> certificates st
      = [["example.com"]] /\
    (fun d => ViewerCertificate.aliases (CloudFrontWebDistribution.viewerCertificate d))
      <$> distributions st
      = [["example.com"]].
Proof. run_constructor. repeat split; vm_compute; reflexivity. Qed.

(** A delivery stack whose props carry no environment is not built: the
    read of the account throws. *)
Example CiCdStack_without_environment :
  CiCdStack.create "cdk-web-cicd-stack"
    {| CiCdProps.env := None;
       CiCdProps.resourcePrefix := "cdk-web-cicd";
       CiCdProps.distributionId := Main.staticSiteDistributionId;
       CiCdProps.bucket := Main.staticSiteBucket;
       CiCdProps.repo := "repo";
       CiCdProps.repoOwner := "owner";
       CiCdProps.repoBranch := "master";
       CiCdProps.githubTokenSecretId := "/static-cdk/cicd/github_token";
       CiCdProps.buildAlertEmail := "ops@example.com" |}
  = inl (TypeError "Cannot read properties of undefined (reading 'account')").
Proof. reflexivity. Qed.

(** Once the provider has created the entry point's hosting stack, the
    entry point's delivery stack synchronises into the bucket that bears
    the domain name of the hosting props. *)
Lemma bucket_named_by_primary_domain_witness :
  exists hosting delivery prj sync inval,
    StaticSiteStack.create "cdk-web-static-stack" Main.staticSiteProps = inr hosting /\
    CiCdStack.create "cdk-web-cicd-stack" Main.ciCdProps = inr delivery /\
    namesBuckets entryResolution hosting /\
    publishedTo entryResolution hosting /\
    projects delivery = [prj] /\
    BuildSpec.commandsOf (PipelineProject.buildSpec prj) "post_build" = [sync; inval] /\
    render entryResolution sync =
      "aws s3 sync " +:+ dq +:+ "dist" +:+ dq +:+ " " +:+ dq
        +:+ "s3://<<YOUR_DOMAIN_NAME>>" +:+ dq +:+ " --delete".
Proof.
  destruct (bucket_named_by_primary_domain "cdk-web-static-stack" Main.staticSiteProps)
    as (hosting & Hh & hb & b & out & rest & _ & _ & _ & Hout & _ & _ & _ & Hsync).
  assert (namesBuckets entryResolution hosting /\ publishedTo entryResolution hosting)
    as [Hname Hpub].
  { vm_compute in Hh. injection Hh as <-. split; repeat constructor. }
  destruct (Hsync entryResolution "cdk-web-cicd-stack" Main.ciCdProps entryEnvironment
              Hname Hpub eq_refl eq_refl)
    as (delivery & Hd & prj & sync & inval & Hp & Hc & Hr).
  exists hosting, delivery, prj, sync, inval.
  repeat (split; [assumption |]). exact Hr.
Defined.

(** The delivery stack of the entry point holds the two imports where it
    names the bucket and the distribution. *)
Lemma delivery_identifiers_are_output_references_witness :
  exists st prj sync inval,
    CiCdStack.create "cdk-web-cicd-stack" Main.ciCdProps = inr st /\
    projects st = [prj] /\
    BuildSpec.commandsOf (PipelineProject.buildSpec prj) "post_build" = [sync; inval] /\
    sync = [ Text ("aws s3 sync " +:+ dq +:+ "dist" +:+ dq +:+ " " +:+ dq +:+ "s3://");
             ImportValue "cdk-web-static-bucket-name";
             Text (dq +:+ " --delete") ] /\
    inval = [ Text "aws cloudfront create-invalidation --distribution-id ";
              ImportValue "cdk-web-static-distribution-id";
              Text (" --paths " +:+ dq +:+ "/*" +:+ dq) ] /\
    forall key, In key (importKeys st) <->
                key = "cdk-web-static-bucket-name" \/ key = "cdk-web-static-distribution-id".
Proof.
  destruct delivery_identifiers_are_output_references as (_ & _ & _ & _ & _ & Hwired).
  destruct (Hwired "cdk-web-cicd-stack" Main.ciCdProps entryEnvironment
              "cdk-web-static-bucket-name" "cdk-web-static-distribution-id"
              eq_refl eq_refl eq_refl)
    as (st & Hst & prj & role & s3 & cf & sync & inval
          & Hp & Hc & Hs & Hi & _ & _ & _ & _ & Hkeys).
  exists st, prj, sync, inval. repeat (split; [assumption |]). exact Hkeys.
Defined.

(** The bucket policy of the hosting stack for [example.com] lets the role of the
    auto-delete provider list the bucket, and the build role of a
    delivery stack wired to it may get the objects of the bucket: two
    principals other than the origin access identity that are granted
    read access to the storage target. *)
Lemma storage_target_read_by_other_principals :
  exists hosting b s p,
    StaticSiteStack.create "site-stack" exampleHostingProps = inr hosting /\
    buckets hosting = [b] /\
    In s (Bucket.policy b) /\
    allowsAction s "s3:ListBucket" = true /\
    In p (PolicyStatement.principals s) /\
    p <> CanonicalUserPrincipal
           (OriginAccessIdentity.cloudFrontOriginAccessIdentityS3CanonicalUserId 1) /\
    ~ (forall s' p', In s' (Bucket.policy b) -> In p' (PolicyStatement.principals s') ->
         p' = CanonicalUserPrincipal
                (OriginAccessIdentity.cloudFrontOriginAccessIdentityS3CanonicalUserId 1)) /\
    exists delivery prj role r,
      CiCdStack.create "delivery-stack" exampleDeliveryProps = inr delivery /\
      projects delivery = [prj] /\
      PipelineProject.role prj = Some role /\
      In (Declared r) (Role.document role) /\
      allowsAction r "s3:GetObject" = true /\
      In "arn:aws:s3:::example.com/*"
         (render (resolutionFor "site-bucket-name" "example.com")
            <$> PolicyStatement.resources r) /\
      namesBuckets (resolutionFor "site-bucket-name" "example.com") hosting /\
      publishedTo (resolutionFor "site-bucket-name" "example.com") hosting.
Proof.
  let r := eval vm_compute in (StaticSiteStack.create "site-stack" exampleHostingProps) in
  lazymatch r with
  | inr ?h => exists h
  end.
  do 3 eexists.
  split; [vm_compute; reflexivity |].
  split; [reflexivity |].
  split; [left; reflexivity |].
  split; [reflexivity |].
  split; [left; reflexivity |].
  split; [discriminate |].
  split.
  { intros H. specialize (H _ _ (or_introl eq_refl) (or_introl eq_refl)). discriminate H. }
  let r := eval vm_compute in (CiCdStack.create "delivery-stack" exampleDeliveryProps) in
  lazymatch r with
  | inr ?d => exists d
  end.
  do 3 eexists.
  split; [vm_compute; reflexivity |].
  split; [reflexivity |].
  split; [reflexivity |].
  split; [do 2 right; left; reflexivity |].
  split; [reflexivity |].
  split; [right; left; reflexivity |].
  split; repeat constructor.
Qed.

(** The role of the entry point's build project carries seven statements:
    the two that the builder declares and five of the library's. *)
Lemma build_role_holds_library_statements :
  exists st prj role,
    CiCdStack.create "cdk-web-cicd-stack" Main.ciCdProps = inr st /\
    projects st = [prj] /\
    PipelineProject.role prj = Some role /\
    length (Role.document role) = 7 /\
    In (Attached LoggingPermission) (Role.document role) /\
    ~ (exists s3 cf, Role.document role = [Declared s3; Declared cf]).
Proof.
  let r := eval vm_compute in (CiCdStack.create "cdk-web-cicd-stack" Main.ciCdProps) in
  lazymatch r with
  | inr ?d => exists d
  end.
  do 2 eexists.
  split; [vm_compute; reflexivity |].
  split; [reflexivity |].
  split; [reflexivity |].
  split; [reflexivity |].
  split; [left; reflexivity |].
  intros (s3 & cf & H). discriminate H.
Qed.


(** ** Further properties of the delivery stack *)

Section DeliveryMore.
Import CiCdProps.
Variable id : string.

(** X2. When the environment names no account, the stack is still built,
    and the resource of the invalidation statement carries the text
    [undefined] where the account belongs. *)
Theorem undefined_account_in_distribution_arn (props : CiCdProps.t) (e : Environment.t) :
  env props = Some e ->
  Environment.account e = None ->
  exists st, CiCdStack.create id props = inr st /\
  exists prj role s3 cf,
    projects st = [prj] /\
    PipelineProject.role prj = Some role /\
    Role.principalPolicy role = [s3; cf] /\
    PolicyStatement.actions cf = ["cloudfront:CreateInvalidation"] /\
    forall res : Resolution,
      render res <$> PolicyStatement.resources cf
        = ["arn:aws:cloudfront::undefined:distribution/" +:+ render res (distributionId props)].
Proof.
  destruct props as [[e'|] p di b r ro rb g m]; cbn [env]; intros [= ->].
  destruct e as [a rg]; cbn [Environment.account]; intros ->.
  run_constructor. do 4 eexists. repeat (split; [reflexivity |]).
  intros res. reflexivity.
Qed.

(** X3. The pipeline has two stages, [Source] and then [Build], of one
    action each.  The source action reads the repository given by the
    props, with a token that is the [github-token] field of the secret
    named by the props; the artifact it produces is the input of the
    build action. *)
Theorem source_stage_feeds_build_stage (props : CiCdProps.t) (e : Environment.t) :
  env props = Some e ->
  exists st, CiCdStack.create id props = inr st /\
  exists pl sa ba,
    pipelines st = [pl] /\
    Pipeline.stages pl
      = [ {| StageProps.stageName := "Source"; StageProps.actions := [SourceAction sa] |};
          {| StageProps.stageName := "Build"; StageProps.actions := [BuildAction ba] |} ] /\
    GitHubSourceAction.owner sa = repoOwner props /\
    GitHubSourceAction.repo sa = repo props /\
    GitHubSourceAction.branch sa = repoBranch props /\
    GitHubSourceAction.oauthToken sa
      = SecretValue.secretsManager (githubTokenSecretId props) "github-token" /\
    CodeBuildAction.input ba = GitHubSourceAction.output sa /\
    GitHubSourceAction.actionName sa <> CodeBuildAction.actionName ba.
Proof.
  destruct props as [[e'|] p di b r ro rb g m]; cbn [env]; intros [= ->].
  destruct e as [a rg].
  run_constructor. do 3 eexists. repeat (split; [reflexivity |]). discriminate.
Qed.

(** X4. Under any prefix the constructs of the delivery stack bear
    pairwise distinct ids; the pipeline is named by its id and the topic
    by its id. *)
Theorem delivery_ids_distinct_and_names_follow (props : CiCdProps.t) (e : Environment.t) :
  env props = Some e ->
  exists st, CiCdStack.create id props = inr st /\
    NoDup (ids st) /\
    Forall (fun n => match Node.construct n with
                     | CPipeline pl => Pipeline.pipelineName pl = Node.id n
                     | CTopic tp => Topic.topicName tp = Node.id n
                     | _ => True
                     end) (Stack.children st).
Proof.
  intros He.
  destruct (CiCdStack_ids id props) as (st & Hst & Hids); [now rewrite He |].
  exists st. split; [exact Hst |]. split.
  { rewrite Hids. apply NoDup_identifyResource. compute_done. }
  revert Hst. clear Hids.
  destruct props as [[e'|] p di b r ro rb g m]; [| discriminate He].
  vm_compute. intros [= <-]. repeat constructor.
Qed.

(** X9. Every construct of the delivery stack is created directly under
    the stack, except one: the rule that fires on a failed build, which
    [onBuildFailed] creates under the build project it watches, with the
    id derived from the prefix and [build-failed]. *)
Theorem failure_rule_created_under_project (props : CiCdProps.t) (e : Environment.t) :
  env props = Some e ->
  exists st, CiCdStack.create id props = inr st /\
  exists hp prj nr rule,
    construct_at hp st = Some (CPipelineProject prj) /\
    projects st = [prj] /\
    In nr (Stack.children st) /\
    Node.construct nr = CRule rule /\
    rules st = [rule] /\
    Rule.project rule = hp /\
    Node.scope nr = Under hp /\
    Node.id nr = identifyResource (resourcePrefix props) "build-failed" /\
    (forall n, In n (Stack.children st) -> n <> nr -> Node.scope n = This).
Proof.
  destruct props as [[e'|] p di b r ro rb g m]; cbn [env resourcePrefix]; intros [= ->].
  destruct e as [a rg].
  run_constructor. exists 0. do 3 eexists.
  do 2 (split; [reflexivity |]).
  split; [do 3 right; left; reflexivity |].
  do 5 (split; [reflexivity |]).
  intros n [<- | [<- | [<- | [<- | [<- | []]]]]] Hne;
    try reflexivity; contradiction Hne; reflexivity.
Qed.
End DeliveryMore.


(** ** Imports and exports *)

Lemma keysOf_app (a b : CfnString) : keysOf (a ++ b) = keysOf a ++ keysOf b.
Proof. apply omap_app. Qed.

Lemma keysOf_text (s : string) : keysOf [Text s] = [].
Proof. reflexivity. Qed.

(** X12. The delivery stack imports what its props import and nothing
    else: an export name is imported somewhere in the stack exactly when
    the bucket or the distribution identifier of the props imports it.
    The builder adds no import of its own, and drops none. *)
Theorem delivery_imports_come_from_props (id : string) (props : CiCdProps.t)
    (e : Environment.t) :
  CiCdProps.env props = Some e ->
  exists st, CiCdStack.create id props = inr st /\
    forall key, In key (importKeys st) <->
                In key (keysOf (CiCdProps.bucket props)) \/
                In key (keysOf (CiCdProps.distributionId props)).
Proof.
  destruct props as [[e'|] p di b r ro rb g m]; cbn [CiCdProps.env]; intros [= ->].
  destruct e as [a rg]. cbn [CiCdProps.bucket CiCdProps.distributionId].
  run_constructor.
  match goal with
  | |- forall key, In key (importKeys ?s) <-> _ =>
      assert (importKeys s
              = (keysOf (b ++ [Text (dq +:+ " --delete")])
                 ++ keysOf (di ++ [Text (" --paths " +:+ dq +:+ "/*" +:+ dq)])
                 ++ keysOf b ++ keysOf (b ++ [Text "/*"]) ++ keysOf di ++ []) ++ []) as ->
        by reflexivity
  end.
  intros key. rewrite !keysOf_app, !in_app_iff, !keysOf_text. cbn [In]. tauto.
Qed.

(** X15. Wired as the entry point wires them, the two stacks match: the
    delivery stack is given the imports of the two keys of the hosting
    props, and then the export names it imports are exactly the export
    names of the outputs of the hosting stack. *)
Theorem delivery_imports_match_hosting_exports (hid cid : string)
    (hprops : StaticSiteProps.t) (cprops : CiCdProps.t) (e : Environment.t) :
  CiCdProps.env cprops = Some e ->
  CiCdProps.bucket cprops
    = Fn.importValue (StaticSiteProps.staticSiteBucketNameOutputId hprops) ->
  CiCdProps.distributionId cprops
    = Fn.importValue (StaticSiteProps.staticSiteDistributionIdOutputId hprops) ->
  exists hosting delivery,
    StaticSiteStack.create hid hprops = inr hosting /\
    CiCdStack.create cid cprops = inr delivery /\
    importKeys hosting = [] /\
    forall key, In key (importKeys delivery) <->
                In key (CfnOutput.exportName <$> outputs hosting).
Proof.
  destruct cprops as [[e'|] p di b r ro rb g m];
    cbn [CiCdProps.env CiCdProps.bucket CiCdProps.distributionId]; intros [= ->] -> ->.
  destruct e as [a rg].
  destruct hprops as [he hp z d w src k1 k2];
    cbn [StaticSiteProps.staticSiteBucketNameOutputId
         StaticSiteProps.staticSiteDistributionIdOutputId].
  destruct w.
  all: match goal with
       | |- exists hosting delivery, ?c = inr hosting /\ ?c' = inr delivery /\ _ =>
           let r := eval vm_compute in c in
           let r' := eval vm_compute in c' in
           lazymatch r with
           | inr ?h =>
               lazymatch r' with
               | inr ?dl => exists h, dl
               end
           end
       end.
  all: split; [vm_compute; reflexivity |].
  all: split; [vm_compute; reflexivity |].
  all: split; [reflexivity |].
  all: intros key; vm_compute; tauto.
Qed.


(** ** Further properties of the hosting stack *)

Lemma ids_outputs_derived (st : Stack.t) : ids st ≡ₚ outputIds st ++ derivedIds st.
Proof.
  unfold ids, outputIds, derivedIds.
  induction (Stack.children st) as [|n l IH]; [reflexivity |].
  cbn [List.filter fmap list_fmap]. destruct (isOutput n); cbn [negb fmap list_fmap app].
  - now rewrite IH.
  - rewrite IH. apply Permutation_middle.
Qed.

Lemma NoDup_pair_with (k1 k2 : string) (l : list string) :
  NoDup l ->
  NoDup ([k1; k2] ++ l) <-> k1 <> k2 /\ ~ In k1 l /\ ~ In k2 l.
Proof.
  intros Hl. cbn [app]. rewrite !NoDup_cons, <- !list_elem_of_In.
  rewrite not_elem_of_cons. tauto.
Qed.

Section HostingMore.
Import StaticSiteProps.
Variable id : string.

(** X5. The ids that the hosting constructor derives from the prefix
    never clash among themselves: whenever the two output keys of the
    props differ from each other and from the derived ids, the ids under
    which the constructor declares its constructs are pairwise distinct. *)
Theorem hosting_ids_distinct (props : StaticSiteProps.t) :
  staticSiteBucketNameOutputId props <> staticSiteDistributionIdOutputId props ->
  ~ In (staticSiteBucketNameOutputId props)
       (identifyResource (resourcePrefix props) <$> hostingLogicalNames) ->
  ~ In (staticSiteDistributionIdOutputId props)
       (identifyResource (resourcePrefix props) <$> hostingLogicalNames) ->
  exists st, StaticSiteStack.create id props = inr st /\ NoDup (ids st).
Proof.
  destruct props as [e p z d [|] src k1 k2];
    cbn [staticSiteBucketNameOutputId staticSiteDistributionIdOutputId resourcePrefix];
    intros Hne H1 H2; run_constructor;
    match goal with
    | |- NoDup (ids ?s) => rewrite (ids_outputs_derived s); change (outputIds s) with [k1; k2]
    end.
  - apply NoDup_pair_with; [| now repeat split].
    change (NoDup (identifyResource p <$> hostingLogicalNames)).
    apply NoDup_identifyResource. compute_done.
  - apply NoDup_pair_with.
    + change (NoDup (identifyResource p <$>
                       ["hosted-zone"; "cloudfront-OAI"; "site-bucket"; "site-certificate";
                        "site-distribution"; "site-alias-record-01"; "bucket-deployment"])).
      apply NoDup_identifyResource. compute_done.
    + split; [exact Hne |].
      split; intros Hin; [apply H1 | apply H2];
        unfold hostingLogicalNames; cbn [fmap list_fmap In];
        cbn [derivedIds fmap list_fmap List.filter isOutput negb Node.construct
             Stack.children Node.id In] in Hin; tauto.
Qed.
(** X6. The aliases of the distribution are the domain of the certificate
    followed by its subject alternative names, and they are the names of
    the DNS alias records, in the same order: every name the distribution
    answers to is covered by the certificate and has a record. *)
Theorem aliases_covered_by_certificate_and_records (props : StaticSiteProps.t) :
  exists st, StaticSiteStack.create id props = inr st /\
  exists cert dist,
    certificates st = [cert] /\
    distributions st = [dist] /\
    DnsValidatedCertificate.domainName cert = domainName props /\
    ViewerCertificate.aliases (CloudFrontWebDistribution.viewerCertificate dist)
      = DnsValidatedCertificate.domainName cert
          :: DnsValidatedCertificate.subjectAlternativeNames cert /\
    recordNames st
      = ViewerCertificate.aliases (CloudFrontWebDistribution.viewerCertificate dist) /\
    ViewerCertificate.sslMethod (CloudFrontWebDistribution.viewerCertificate dist) = SNI.
Proof.
  destruct props as [e p z d [|] src k1 k2]; run_constructor;
    do 2 eexists; repeat split; reflexivity.
Qed.

(** X7. With the alias switched on the stack holds exactly two DNS alias
    records, the primary domain and then its [www.] alias, and the one
    subject alternative name of the certificate is that alias. *)
Theorem www_two_records_one_alternative_name (props : StaticSiteProps.t) :
  includeWWW props = true ->
  exists st, StaticSiteStack.create id props = inr st /\
  exists cert,
    recordNames st = [domainName props; wwwDomain props] /\
    certificates st = [cert] /\
    DnsValidatedCertificate.subjectAlternativeNames cert = [wwwDomain props].
Proof.
  destruct props as [e p z d w src k1 k2]; cbn [domainName includeWWW]; intros ->.
  run_constructor. eexists. repeat split; reflexivity.
Qed.

(** X10. The hosting stack declares one deployment: it copies the site
    source path of the props into the bucket that is the origin of the
    distribution, and invalidates every path of that distribution. *)
Theorem deployment_fills_the_served_bucket (props : StaticSiteProps.t) :
  exists st, StaticSiteStack.create id props = inr st /\
  exists dep hb b hd dist oc,
    deployments st = [dep] /\
    BucketDeployment.sources dep = [siteSourcePath props] /\
    BucketDeployment.distributionPaths dep = ["/*"] /\
    BucketDeployment.destinationBucket dep = hb /\
    construct_at hb st = Some (CBucket b) /\
    buckets st = [b] /\
    BucketDeployment.distribution dep = hd /\
    construct_at hd st = Some (CCloudFrontWebDistribution dist) /\
    distributions st = [dist] /\
    CloudFrontWebDistribution.originConfigs dist = [oc] /\
    S3OriginConfig.s3BucketSource (SourceConfiguration.s3OriginSource oc) = hb.
Proof.
  destruct props as [e p z d [|] src k1 k2]; run_constructor;
    eexists; exists 2; eexists; exists 5; do 2 eexists; repeat split; reflexivity.
Qed.

(** X11. The stack looks up one hosted zone, by the zone name of the
    props.  The certificate is validated in that zone and requested in
    [us-east-1], whatever the environment of the props; every DNS alias
    record is created in that zone and points to the one distribution. *)
Theorem one_zone_one_distribution (props : StaticSiteProps.t) :
  exists st, StaticSiteStack.create id props = inr st /\
  exists hz zone cert hd dist,
    hostedZones st = [zone] /\
    construct_at hz st = Some (CHostedZone zone) /\
    HostedZone.domainName zone = hostedZoneName props /\
    certificates st = [cert] /\
    DnsValidatedCertificate.hostedZone cert = hz /\
    DnsValidatedCertificate.region cert = "us-east-1" /\
    distributions st = [dist] /\
    construct_at hd st = Some (CCloudFrontWebDistribution dist) /\
    Forall (fun r => ARecord.zone r = hz /\ ARecord.target r = CloudFrontTarget hd)
           (aRecords st).
Proof.
  destruct props as [e p z d [|] src k1 k2]; run_constructor;
    exists 0; eexists; eexists; exists 5; eexists;
    repeat (split; [reflexivity |]); repeat constructor.
Qed.

(** X13. The alias flag leaves the rest of the topology alone: whatever
    it is set to, the stack has the same zone, origin identity, bucket
    with its policy, outputs and deployment, and the same record for the
    primary domain. *)
Theorem flag_changes_alias_constructs_only (props : StaticSiteProps.t) (www : bool) :
  exists st, StaticSiteStack.create id props = inr st /\
  exists st', StaticSiteStack.create id (withIncludeWWW www props) = inr st' /\
    hostedZones st' = hostedZones st /\
    originAccessIdentities st' = originAccessIdentities st /\
    buckets st' = buckets st /\
    outputs st' = outputs st /\
    deployments st' = deployments st /\
    head (aRecords st') = head (aRecords st).
Proof.
  destruct props as [e p z d w src k1 k2].
  destruct w, www; run_constructor; run_constructor; repeat split; reflexivity.
Qed.

End HostingMore.

(** X14. The second output of the hosting stack exports, under the
    distribution-id key, the identifier of the one distribution.  A
    delivery stack that imports that key, in an environment that names
    its account, therefore invalidates that very distribution, and its
    second statement allows [cloudfront:CreateInvalidation] on the ARN
    of that distribution in that account, once the provider has published
    the outputs. *)
Theorem delivery_invalidates_the_hosting_distribution (id : string)
    (props : StaticSiteProps.t) :
  exists st, StaticSiteStack.create id props = inr st /\
  exists hd dist out,
    distributions st = [dist] /\
    construct_at hd st = Some (CCloudFrontWebDistribution dist) /\
    last (outputs st) = Some out /\
    length (outputs st) = 2 /\
    CfnOutput.exportName out = StaticSiteProps.staticSiteDistributionIdOutputId props /\
    CfnOutput.value out = CloudFrontWebDistribution.distributionId hd /\
    forall res cid cprops e acct,
      publishedTo res st ->
      CiCdProps.env cprops = Some e ->
      Environment.account e = Some acct ->
      CiCdProps.distributionId cprops
        = Fn.importValue (StaticSiteProps.staticSiteDistributionIdOutputId props) ->
      exists dst, CiCdStack.create cid cprops = inr dst /\
      exists prj role s3 cf sync inval,
        projects dst = [prj] /\
        PipelineProject.role prj = Some role /\
        Role.principalPolicy role = [s3; cf] /\
        BuildSpec.commandsOf (PipelineProject.buildSpec prj) "post_build" = [sync; inval] /\
        PolicyStatement.effectOf cf = ALLOW /\
        PolicyStatement.actions cf = ["cloudfront:CreateInvalidation"] /\
        render res inval =
          "aws cloudfront create-invalidation --distribution-id "
            +:+ attrs res hd "distributionId" +:+ " --paths " +:+ dq +:+ "/*" +:+ dq /\
        render res <$> PolicyStatement.resources cf =
          ["arn:aws:cloudfront::" +:+ acct +:+ ":distribution/"
             +:+ attrs res hd "distributionId"].
Proof.
  destruct props as [e p z d w src k1 k2];
    cbn [StaticSiteProps.staticSiteDistributionIdOutputId].
  destruct w; run_constructor; exists 5; do 2 eexists;
    repeat (split; [reflexivity |]);
    intros res cid [[e'|] cp di b r ro rb g m] e0 acct Hpub;
    cbn [CiCdProps.env CiCdProps.distributionId]; intros [= ->];
    destruct e0 as [a rg]; cbn [Environment.account]; intros -> ->;
    apply Forall_cons_1, proj2, Forall_cons_1, proj1 in Hpub;
    cbn [CfnOutput.exportName CfnOutput.value] in Hpub;
    change (imports res k2 = attrs res 5 "distributionId" +:+ "") in Hpub;
    rewrite append_nil_r in Hpub;
    run_constructor; do 6 eexists; repeat (split; [reflexivity |]); split.
  all: try (change ("aws cloudfront create-invalidation --distribution-id "
              +:+ imports res k2 +:+ " --paths " +:+ dq +:+ "/*" +:+ dq
            = "aws cloudfront create-invalidation --distribution-id "
              +:+ attrs res 5 "distributionId" +:+ " --paths " +:+ dq +:+ "/*" +:+ dq);
            now rewrite Hpub).
  all: change ([("arn:aws:cloudfront::" +:+ acct +:+ ":distribution/")
                  +:+ imports res k2 +:+ ""]
               = ["arn:aws:cloudfront::" +:+ acct +:+ ":distribution/"
                    +:+ attrs res 5 "distributionId"]);
       now rewrite Hpub, append_nil_r, !append_assoc.
Qed.


(** ** The further properties at sample inputs *)

Lemma undefined_account_in_distribution_arn_witness :
  exists st prj role s3 cf,
    CiCdStack.create "cdk-web-cicd-stack" accountlessProps = inr st /\
    projects st = [prj] /\
    PipelineProject.role prj = Some role /\
    Role.principalPolicy role = [s3; cf] /\
    forall res : Resolution,
      render res <$> PolicyStatement.resources cf
        = ["arn:aws:cloudfront::undefined:distribution/E2QWRUHAPOMQZL"].
Proof.
  destruct (undefined_account_in_distribution_arn "cdk-web-cicd-stack" accountlessProps
              {| Environment.account := None; Environment.region := None |} eq_refl eq_refl)
    as (st & Hst & prj & role & s3 & cf & Hp & Hr & Hpol & _ & Hres).
  exists st, prj, role, s3, cf. repeat (split; [assumption |]).
  intros res. rewrite Hres. reflexivity.
Defined.

Lemma source_stage_feeds_build_stage_witness :
  exists st pl sa ba,
    CiCdStack.create "cdk-web-cicd-stack" Main.ciCdProps = inr st /\
    pipelines st = [pl] /\
    pipelineActions pl = [SourceAction sa; BuildAction ba] /\
    GitHubSourceAction.branch sa = "master" /\
    CodeBuildAction.input ba = GitHubSourceAction.output sa.
Proof.
  destruct (source_stage_feeds_build_stage "cdk-web-cicd-stack" Main.ciCdProps
              entryEnvironment eq_refl)
    as (st & Hst & pl & sa & ba & Hp & Hstages & _ & _ & Hb & _ & Hio & _).
  exists st, pl, sa, ba. repeat (split; [assumption |]).
  split; [unfold pipelineActions; rewrite Hstages; reflexivity |].
  split; [exact Hb | exact Hio].
Defined.

Lemma delivery_ids_distinct_and_names_follow_witness :
  exists st,
    CiCdStack.create "cdk-web-cicd-stack" Main.ciCdProps = inr st /\ NoDup (ids st).
Proof.
  destruct (delivery_ids_distinct_and_names_follow "cdk-web-cicd-stack" Main.ciCdProps
              entryEnvironment eq_refl)
    as (st & Hst & Hnd & _).
  exists st. split; assumption.
Defined.

Lemma failure_rule_created_under_project_witness :
  exists st nr rule,
    CiCdStack.create "cdk-web-cicd-stack" Main.ciCdProps = inr st /\
    In nr (Stack.children st) /\
    Node.construct nr = CRule rule /\
    Node.scope nr = Under (Rule.project rule) /\
    Node.id nr = "cdk-web-cicd-build-failed".
Proof.
  destruct (failure_rule_created_under_project "cdk-web-cicd-stack" Main.ciCdProps
              entryEnvironment eq_refl)
    as (st & Hst & hp & prj & nr & rule & _ & _ & Hin & Hc & _ & Hp & Hs & Hid & _).
  exists st, nr, rule. rewrite Hp.
  repeat (split; [assumption |]). exact Hid.
Defined.

Lemma hosting_ids_distinct_witness :
  exists st,
    StaticSiteStack.create "cdk-web-static-stack" Main.staticSiteProps = inr st /\
    NoDup (ids st).
Proof.
  apply (hosting_ids_distinct "cdk-web-static-stack" Main.staticSiteProps).
  - discriminate.
  - vm_compute. intuition discriminate.
  - vm_compute. intuition discriminate.
Defined.

Lemma delivery_imports_come_from_props_witness :
  exists st,
    CiCdStack.create "cdk-web-cicd-stack" Main.ciCdProps = inr st /\
    forall key, In key (importKeys st) <->
                key = "cdk-web-static-bucket-name" \/ key = "cdk-web-static-distribution-id".
Proof.
  destruct (delivery_imports_come_from_props "cdk-web-cicd-stack" Main.ciCdProps
              entryEnvironment eq_refl)
    as (st & Hst & Hkeys).
  exists st. split; [exact Hst |].
  intros key. rewrite Hkeys. vm_compute. intuition congruence.
Defined.

Lemma delivery_imports_match_hosting_exports_witness :
  exists hosting delivery,
    StaticSiteStack.create "cdk-web-static-stack" Main.staticSiteProps = inr hosting /\
    CiCdStack.create "cdk-web-cicd-stack" Main.ciCdProps = inr delivery /\
    forall key, In key (importKeys delivery) <->
                In key (CfnOutput.exportName <$> outputs hosting).
Proof.
  destruct (delivery_imports_match_hosting_exports "cdk-web-static-stack" "cdk-web-cicd-stack"
              Main.staticSiteProps Main.ciCdProps entryEnvironment eq_refl eq_refl eq_refl)
    as (hosting & delivery & Hh & Hd & _ & Hkeys).
  exists hosting, delivery. repeat split; try assumption; apply Hkeys.
Defined.

Lemma www_two_records_one_alternative_name_witness :
  exists st,
    StaticSiteStack.create "site-stack" (exampleProps true) = inr st /\
    recordNames st = ["example.com"; "www.example.com"].
Proof.
  destruct (www_two_records_one_alternative_name "site-stack" (exampleProps true) eq_refl)
    as (st & Hst & cert & Hnames & _).
  exists st. split; [exact Hst | exact Hnames].
Defined.

Lemma delivery_invalidates_the_hosting_distribution_witness :
  exists hosting delivery prj sync inval,
    StaticSiteStack.create "cdk-web-static-stack" Main.staticSiteProps = inr hosting /\
    CiCdStack.create "cdk-web-cicd-stack" Main.ciCdProps = inr delivery /\
    publishedTo entryResolution hosting /\
    projects delivery = [prj] /\
    BuildSpec.commandsOf (PipelineProject.buildSpec prj) "post_build" = [sync; inval] /\
    render entryResolution inval =
      "aws cloudfront create-invalidation --distribution-id E2QWRUHAPOMQZL --paths "
        +:+ dq +:+ "/*" +:+ dq.
Proof.
  destruct (delivery_invalidates_the_hosting_distribution "cdk-web-static-stack"
              Main.staticSiteProps)
    as (hosting & Hh & hd & dist & out & _ & _ & _ & _ & _ & _ & Hinv).
  assert (publishedTo entryResolution hosting) as Hpub.
  { vm_compute in Hh. injection Hh as <-. repeat constructor. }
  destruct (Hinv entryResolution "cdk-web-cicd-stack" Main.ciCdProps entryEnvironment
              Main.accountId Hpub eq_refl eq_refl eq_refl)
    as (delivery & Hd & prj & role & s3 & cf & sync & inval
          & Hp & _ & _ & Hc & _ & _ & Hr & _).
  exists hosting, delivery, prj, sync, inval.
  repeat (split; [assumption |]). rewrite Hr. reflexivity.
Defined.
